(** * Stream Lightning: the room and relay state of [server.py]

    A shallow embedding of the Socket.IO handlers of [src/server.py]:
    the room table [active_rooms], the statistics table [stream_stats],
    the [StreamRoom] class and every [@socketio.on] handler that touches
    them.  A handler becomes a function from the state to the new state
    and the list of the [emit] calls it makes, in order, or to the
    exception it raises.  What the Socket.IO library does with
    [join_room] and with the [room] of an [emit] is part of the model.
    The HTML pages and [latency_ping], which answers with a float of the
    wall clock and touches no state, are left out. *)

From stdpp Require Import gmap strings list fin_maps fin_sets.

Open Scope string_scope.
Open Scope list_scope.
Open Scope nat_scope.
Set Warnings "-register-all,-clear-no-such-hyp".

(** ** Payload values

    What a decoded Socket.IO payload is made of.  Numbers are integers;
    floats and booleans are left out (as a dict key Python identifies
    [True] with [1] and [1.0] with [1]). *)

Inductive value :=
  | VNone
  | VInt (n : Z)
  | VStr (s : string)
  | VList (l : list value)
  | VDict (d : list (string * value)).

(** A Python [dict] with string keys: the inbound [data] and the
    outbound payload literals. *)
Abbreviation pydict := (gmap string value).

(** [data.get(k)] *)
Definition get (data : pydict) (k : string) : value :=
  default VNone (data !! k).

(** [data.get(k, d)] *)
Definition get_default (data : pydict) (k : string) (d : value) : value :=
  default d (data !! k).

(** ** Hashable keys

    [active_rooms], [stream_stats] and the Socket.IO group table are
    dicts keyed by whatever [data.get('room_id')] returned.  [None],
    integers and strings hash; a list or a dict raises [TypeError]. *)

Inductive key :=
  | KNone
  | KInt (n : Z)
  | KStr (s : string).

#[global] Instance key_eq_dec : EqDecision key.
Proof. solve_decision. Defined.

Definition key_enc (k : key) : option (Z + string) :=
  match k with
  | KNone => None
  | KInt n => Some (inl n)
  | KStr s => Some (inr s)
  end.

Definition key_dec (o : option (Z + string)) : key :=
  match o with
  | None => KNone
  | Some (inl n) => KInt n
  | Some (inr s) => KStr s
  end.

#[global] Instance key_countable : Countable key.
Proof. apply (inj_countable' key_enc key_dec). by intros []. Defined.

(** What a call returns, or the exception it raises: [TypeError] from
    hashing a list or a dict, [ValueError] and [KeyError] from the
    Socket.IO library (see [join_room] and [room_participants]). *)
Inductive result (A : Type) :=
  | Ok (a : A)
  | TypeError
  | ValueError
  | KeyError.
Arguments Ok {A} a.
Arguments TypeError {A}.
Arguments ValueError {A}.
Arguments KeyError {A}.

Definition bind {A B} (r : result A) (f : A → result B) : result B :=
  match r with
  | Ok a => f a
  | TypeError => TypeError
  | ValueError => ValueError
  | KeyError => KeyError
  end.

Notation "'let*' x := r 'in' k" := (bind r (λ x, k))
  (at level 10, x name, r at level 100, k at level 200).

(** [hash(v)], as a dict lookup or insert performs it. *)
Definition hash_key (v : value) : result key :=
  match v with
  | VNone => Ok KNone
  | VInt n => Ok (KInt n)
  | VStr s => Ok (KStr s)
  | VList _ | VDict _ => TypeError
  end.

(** The key object a dict holds for a key. *)
Definition key_value (k : key) : value :=
  match k with
  | KNone => VNone
  | KInt n => VInt n
  | KStr s => VStr s
  end.

(** ** [class StreamRoom] *)

(** [request.sid] *)
Abbreviation sid := string.

(** A reading of [datetime.now()], as rendered by the datetime library. *)
Abbreviation timestamp := string.

Record StreamRoom := mkStreamRoom {
  room_id : value;
  host_id : sid;
  viewers : gset string;
  chat_history : list pydict;
  created_at : timestamp;
  stream_active : bool;
}.

(** [StreamRoom.__init__] *)
Definition StreamRoom_init (rid : value) (host : sid) (now : timestamp)
  : StreamRoom :=
  {| room_id := rid; host_id := host; viewers := ∅; chat_history := [];
     created_at := now; stream_active := false |}.

(** [self.viewers.add(viewer_id)] *)
Definition add_viewer (viewer_id : sid) (room : StreamRoom) : StreamRoom :=
  {| room_id := room_id room; host_id := host_id room;
     viewers := viewers room ∪ {[viewer_id]};
     chat_history := chat_history room; created_at := created_at room;
     stream_active := stream_active room |}.

(** [self.viewers.discard(viewer_id)] *)
Definition remove_viewer (viewer_id : sid) (room : StreamRoom) : StreamRoom :=
  {| room_id := room_id room; host_id := host_id room;
     viewers := viewers room ∖ {[viewer_id]};
     chat_history := chat_history room; created_at := created_at room;
     stream_active := stream_active room |}.

(** [len(self.viewers)] *)
Definition get_viewer_count (room : StreamRoom) : nat := size (viewers room).

Definition set_stream_active (b : bool) (room : StreamRoom) : StreamRoom :=
  {| room_id := room_id room; host_id := host_id room;
     viewers := viewers room;
     chat_history := chat_history room; created_at := created_at room;
     stream_active := b |}.

Definition append_chat (entry : pydict) (room : StreamRoom) : StreamRoom :=
  {| room_id := room_id room; host_id := host_id room;
     viewers := viewers room;
     chat_history := chat_history room ++ [entry];
     created_at := created_at room;
     stream_active := stream_active room |}.

(** ** Outbound events

    One [emit(event, payload, room=..., include_self=...)] call.  The
    destination is kept as the call names it: no [room] argument or the
    value passed as [room].  Who receives the event is worked out by
    [recipients] below, from the group table. *)

Inductive dest :=
  | ToSender
  | ToRoom (room : value).

Record emission := mkEmission {
  ev_name : string;
  ev_payload : pydict;
  ev_dest : dest;
  ev_include_self : bool;
}.

Definition emit (name : string) (payload : pydict) : emission :=
  mkEmission name payload ToSender true.

Definition emit_room (name : string) (payload : pydict) (room : value)
  : emission :=
  mkEmission name payload (ToRoom room) true.

Definition emit_room_others (name : string) (payload : pydict) (room : value)
  : emission :=
  mkEmission name payload (ToRoom room) false.

(** Does the [room] argument of the call hash to [k]?  This is about the
    call as written; who receives the event is [recipients]. *)
Definition to_group (k : key) (e : emission) : bool :=
  match ev_dest e with
  | ToSender => false
  | ToRoom v => match hash_key v with
                | Ok k' => bool_decide (k' = k)
                | _ => false
                end
  end.

(** ** Server state

    The module globals [active_rooms] and [stream_stats], and the group
    table of the Socket.IO library ([groups]): the library keeps every
    connected client in the group [None] and in the group named by its own
    sid, and [join_room] adds the groups the handlers ask for.
    [user_connections] is never read or written and is left out. *)

Record state := mkState {
  active_rooms : gmap key StreamRoom;
  stream_stats : gmap key (list pydict);
  groups : gmap key (gset string);
}.

Definition init : state := mkState ∅ ∅ ∅.

Definition members (k : key) (st : state) : gset string :=
  default ∅ (groups st !! k).

Definition set_rooms (tbl : gmap key StreamRoom) (st : state) : state :=
  mkState tbl (stream_stats st) (groups st).

Definition set_stats (tbl : gmap key (list pydict)) (st : state) : state :=
  mkState (active_rooms st) tbl (groups st).

(** The connection is put into the group. *)
Definition enter_room (s : sid) (k : key) (st : state) : state :=
  mkState (active_rooms st) (stream_stats st)
          (<[k := members k st ∪ {[s]}]> (groups st)).

(** Is [t] a connected client?  The group [None] holds them all. *)
Definition connected (t : sid) (st : state) : bool :=
  bool_decide (t ∈ members KNone st).

(** The library lets nobody into the group named by the sid of another
    connected client. *)
Definition join_refused (s : sid) (k : key) (st : state) : bool :=
  match k with
  | KStr t => bool_decide (t ≠ s) && connected t st
  | _ => false
  end.

(** [join_room(room_id)] of Flask-SocketIO: the sender enters the group,
    unless the library refuses with [ValueError]. *)
Definition join_room (s : sid) (k : key) (st : state) : result state :=
  if join_refused s k st then ValueError else Ok (enter_room s k st).

(** After the disconnect handler has run the library drops the
    connection from every group. *)
Definition leave_all (s : sid) (st : state) : state :=
  mkState (active_rooms st) (stream_stats st)
          ((λ g, g ∖ {[s]}) <$> groups st).

(** What a handler returns: the new state and the emitted events. *)
Abbreviation outcome := (result (state * list emission)).

(** ** Delivery

    How the library turns the [room] argument of an [emit] into
    connections.  Flask-SocketIO replaces a missing or [None] room by
    [request.sid]; python-socketio then takes any other false value for
    "no room", which is every connected client, indexes a value that has a
    length and is no string as a sequence of rooms, and looks any other
    value up in the group table. *)

(** [not v] *)
Definition falsy (v : value) : bool :=
  match v with
  | VNone | VInt 0 | VStr "" | VList [] | VDict [] => true
  | _ => false
  end.

(** The participants of [room], for a [room] that is not [None]. *)
Definition room_participants (room : value) (st : state)
  : result (gset string) :=
  if falsy room then Ok (members KNone st)
  else match room with
       | VDict _ => KeyError
       | VList rooms =>
           foldr (λ r acc, let* k := hash_key r in
                           let* rest := acc in
                           Ok (members k st ∪ rest))
                 (Ok ∅) rooms
       | _ => let* k := hash_key room in Ok (members k st)
       end.

(** The connections an emission of [s] is sent to in state [st]. *)
Definition recipients (s : sid) (st : state) (e : emission)
  : result (gset string) :=
  let* all := match ev_dest e with
              | ToSender | ToRoom VNone => Ok {[s]}
              | ToRoom room => room_participants room st
              end in
  Ok (if ev_include_self e then all else all ∖ {[s]}).

(** An [emit] whose [room] may be any value of the payload: it raises
    what the delivery raises. *)
Definition emit_checked (s : sid) (st : state) (e : emission) : outcome :=
  let* _ := recipients s st e in Ok (st, [e]).

(** ** The handlers *)

(** [@socketio.on('connect')] *)
Definition handle_connect (s : sid) (st : state) : state * list emission :=
  (st, [emit "connected" {[ "sid" := VStr s ]}]).

(** The library registers the client before the handler runs. *)
Definition on_connect (s : sid) (st : state) : state * list emission :=
  handle_connect s (enter_room s (KStr s) (enter_room s KNone st)).

(** One turn of the loop of [handle_disconnect] over the snapshot
    [list(active_rooms.items())]: [tbl] is the live [active_rooms], [room]
    the object the snapshot and the table share. *)
Definition disconnect_room (s : sid)
    (acc : gmap key StreamRoom * list emission) (item : key * StreamRoom)
  : gmap key StreamRoom * list emission :=
  let '(tbl, out) := acc in
  let '(k, room) := item in
  if decide (s = host_id room) then
    (delete k tbl,
     out ++ [emit_room "stream_ended"
               {[ "message" := VStr "Host disconnected" ]} (key_value k)])
  else if decide (s ∈ viewers room) then
    let room' := remove_viewer s room in
    (<[k := room']> tbl,
     out ++ [emit_room "viewer_left"
               {[ "viewer_id" := VStr s;
                  "viewer_count" := VInt (Z.of_nat (get_viewer_count room')) ]}
               (key_value k)])
  else (tbl, out).

(** [@socketio.on('disconnect')].  Python walks the snapshot in insertion
    order; the table here is walked in the order of [map_to_list]. *)
Definition handle_disconnect (s : sid) (st : state) : state * list emission :=
  let '(tbl, out) :=
    foldl (disconnect_room s) (active_rooms st, [])
          (map_to_list (active_rooms st)) in
  (set_rooms tbl st, out).

(** The handler followed by the library's own cleanup of the groups. *)
Definition on_disconnect (s : sid) (st : state) : state * list emission :=
  let '(st', out) := handle_disconnect s st in (leave_all s st', out).

(** [@socketio.on('create_room')] *)
Definition handle_create_room (s : sid) (now : timestamp) (data : pydict)
    (st : state) : outcome :=
  let rid := get data "room_id" in
  let* k := hash_key rid in
  let* st1 := join_room s k st in
  let room := StreamRoom_init rid s now in
  let st2 := set_rooms (<[k := room]> (active_rooms st1)) st1 in
  Ok (st2, [emit "room_created" {[ "room_id" := rid; "host_id" := VStr s ]}]).

(** [@socketio.on('join_room')] *)
Definition handle_join_room (s : sid) (data : pydict) (st : state) : outcome :=
  let rid := get data "room_id" in
  let username := get_default data "username" (VStr "Anonymous") in
  let* k := hash_key rid in
  match active_rooms st !! k with
  | None => Ok (st, [emit "error" {[ "message" := VStr "Room not found" ]}])
  | Some room =>
      let* st1 := join_room s k st in
      let room' := add_viewer s room in
      let st2 := set_rooms (<[k := room']> (active_rooms st1)) st1 in
      let count := VInt (Z.of_nat (get_viewer_count room')) in
      Ok (st2,
          [emit "room_joined"
             {[ "room_id" := rid; "viewer_count" := count;
                "username" := username ]};
           emit_room_others "viewer_joined"
             {[ "viewer_id" := VStr s; "username" := username;
                "viewer_count" := count ]} rid])
  end.

(** [@socketio.on('start_stream')] *)
Definition handle_start_stream (data : pydict) (st : state) : outcome :=
  let rid := get data "room_id" in
  let* k := hash_key rid in
  match active_rooms st !! k with
  | Some room =>
      let room' := set_stream_active true room in
      Ok (set_rooms (<[k := room']> (active_rooms st)) st,
          [emit_room "stream_started" {[ "room_id" := rid ]} rid])
  | None => Ok (st, [])
  end.

(** [@socketio.on('stop_stream')] *)
Definition handle_stop_stream (data : pydict) (st : state) : outcome :=
  let rid := get data "room_id" in
  let* k := hash_key rid in
  match active_rooms st !! k with
  | Some room =>
      let room' := set_stream_active false room in
      Ok (set_rooms (<[k := room']> (active_rooms st)) st,
          [emit_room "stream_stopped" {[ "room_id" := rid ]} rid])
  | None => Ok (st, [])
  end.

(** [@socketio.on('offer')] *)
Definition handle_offer (s : sid) (data : pydict) (st : state)
  : outcome :=
  let target_id := get data "target_id" in
  let offer := get data "offer" in
  emit_checked s st
    (emit_room "offer" {[ "offer" := offer; "sender_id" := VStr s ]}
               target_id).

(** [@socketio.on('answer')] *)
Definition handle_answer (s : sid) (data : pydict) (st : state)
  : outcome :=
  let target_id := get data "target_id" in
  let answer := get data "answer" in
  emit_checked s st
    (emit_room "answer" {[ "answer" := answer; "sender_id" := VStr s ]}
               target_id).

(** [@socketio.on('ice_candidate')] *)
Definition handle_ice_candidate (s : sid) (data : pydict) (st : state)
  : outcome :=
  let target_id := get data "target_id" in
  let candidate := get data "candidate" in
  emit_checked s st
    (emit_room "ice_candidate"
               {[ "candidate" := candidate; "sender_id" := VStr s ]}
               target_id).

(** [@socketio.on('chat_message')]; [now] is
    [datetime.now().strftime('%H:%M:%S')]. *)
Definition handle_chat_message (now : timestamp) (data : pydict) (st : state)
  : outcome :=
  let rid := get data "room_id" in
  let message := get data "message" in
  let username := get_default data "username" (VStr "Anonymous") in
  let* k := hash_key rid in
  match active_rooms st !! k with
  | Some room =>
      let chat_data : pydict :=
        {[ "username" := username; "message" := message;
           "timestamp" := VStr now ]} in
      Ok (set_rooms (<[k := append_chat chat_data room]> (active_rooms st)) st,
          [emit_room "chat_message" chat_data rid])
  | None => Ok (st, [])
  end.

(** The slice [l[-n:]] for [n > 0]. *)
Definition slice_last {A} (n : nat) (l : list A) : list A :=
  drop (length l - n) l.

(** The dict appended by [handle_stream_stats]. *)
Definition stats_entry (now : timestamp) (stats : value) : pydict :=
  {[ "timestamp" := VStr now; "stats" := stats ]}.

(** [@socketio.on('stream_stats')]; [now] is [datetime.now().isoformat()]. *)
Definition handle_stream_stats (now : timestamp) (data : pydict) (st : state)
  : outcome :=
  let rid := get data "room_id" in
  let stats := get data "stats" in
  let* k := hash_key rid in
  let log := default [] (stream_stats st !! k) in
  let log1 := log ++ [stats_entry now stats] in
  let log2 := if decide (100 < length log1) then slice_last 100 log1 else log1 in
  Ok (set_stats (<[k := log2]> (stream_stats st)) st, []).

(** [GET /api/stats/<room_id>]: the route hands over a string. *)
Definition get_stats (rid : string) (st : state) : list pydict :=
  match stream_stats st !! KStr rid with
  | Some log => log
  | None => []
  end.

(** [room_id in active_rooms] *)
Definition room_active (rid : value) (st : state) : result bool :=
  let* k := hash_key rid in Ok (bool_decide (is_Some (active_rooms st !! k))).

(** ** Events and runs *)

Inductive event :=
  | Connect
  | Disconnect
  | CreateRoom (now : timestamp) (data : pydict)
  | JoinRoom (data : pydict)
  | StartStream (data : pydict)
  | StopStream (data : pydict)
  | Offer (data : pydict)
  | Answer (data : pydict)
  | IceCandidate (data : pydict)
  | ChatMessage (now : timestamp) (data : pydict)
  | StreamStats (now : timestamp) (data : pydict).

(** The dispatch of one inbound event of connection [s]. *)
Definition step (s : sid) (e : event) (st : state) : outcome :=
  match e with
  | Connect => Ok (on_connect s st)
  | Disconnect => Ok (on_disconnect s st)
  | CreateRoom now data => handle_create_room s now data st
  | JoinRoom data => handle_join_room s data st
  | StartStream data => handle_start_stream data st
  | StopStream data => handle_stop_stream data st
  | Offer data => handle_offer s data st
  | Answer data => handle_answer s data st
  | IceCandidate data => handle_ice_candidate s data st
  | ChatMessage now data => handle_chat_message now data st
  | StreamStats now data => handle_stream_stats now data st
  end.

(** A handler that raises leaves the state as it found it (every handler
    hashes [room_id] and enters the group before its first write, and a
    relay writes nothing) and emits nothing. *)
Definition step_total (s : sid) (e : event) (st : state)
  : state * list emission :=
  match step s e st with
  | Ok r => r
  | _ => (st, [])
  end.

Fixpoint run (evs : list (sid * event)) (st : state) : state * list emission :=
  match evs with
  | [] => (st, [])
  | (s, e) :: evs' =>
      let '(st1, out1) := step_total s e st in
      let '(st2, out2) := run evs' st1 in
      (st2, out1 ++ out2)
  end.

(** ** Auxiliary notions used in the statements *)

(** What the loop of [handle_disconnect] leaves of one room. *)
Definition disconnect_entry (s : sid) (room : StreamRoom) : option StreamRoom :=
  if decide (s = host_id room) then None
  else if decide (s ∈ viewers room) then Some (remove_viewer s room)
  else Some room.

(** What the loop of [handle_disconnect] emits for one room. *)
Definition disconnect_out (s : sid) (item : key * StreamRoom) : list emission :=
  (disconnect_room s (∅, []) item).2.

(** Every room's host and viewers are in the room's Socket.IO group: both
    entered it through [join_room(room_id)] and leave it only when they
    disconnect. *)
Definition wf (st : state) : Prop :=
  ∀ k room, active_rooms st !! k = Some room →
    host_id room ∈ members k st ∧ viewers room ⊆ members k st.

(** A [stream_stats] event whose [room_id] hashes to [k]. *)
Definition stats_event_for (k : key) (ev : sid * event) : bool :=
  match ev.2 with
  | StreamStats _ data =>
      match hash_key (get data "room_id") with
      | Ok k' => bool_decide (k' = k)
      | _ => false
      end
  | _ => false
  end.

(** The log entries a run of [stream_stats] events appends, in order. *)
Definition stats_entries (evs : list (sid * event)) : list pydict :=
  flat_map (λ ev, match ev.2 with
                  | StreamStats now data => [stats_entry now (get data "stats")]
                  | _ => []
                  end) evs.

(** A signalling handler relays [field] of [data] under the event [name]
    from [s] to the client [t]: it returns with one emission, which is
    sent to [t] and to nobody else and carries what [data] holds for the
    field ([None] if it holds nothing) and the sender's id; the state is
    untouched, and the room table has no say in it. *)
Definition relays (field name : string)
    (handler : sid → pydict → state → outcome)
    (s : sid) (data : pydict) (st : state) (t : sid) : Prop :=
  ∃ payload,
    let e := mkEmission name payload (ToRoom (VStr t)) true in
    handler s data st = Ok (st, [e])
    ∧ recipients s st e = Ok {[t]}
    ∧ payload !! field = Some (default VNone (data !! field))
    ∧ payload !! "sender_id" = Some (VStr s)
    ∧ dom payload = {[ field; "sender_id" ]}
    ∧ ∀ tbl, handler s data (set_rooms tbl st) = Ok (set_rooms tbl st, [e]).

(** Does the event look [room_id] up in a table? *)
Definition keyed_event (e : event) : bool :=
  match e with
  | CreateRoom _ _ | JoinRoom _ | StartStream _ | StopStream _
  | ChatMessage _ _ | StreamStats _ _ => true
  | _ => false
  end.

Definition succeeds {A} (r : result A) : Prop := ∃ a, r = Ok a.

(** The room a [create_room] of [s] at [now] puts in the table. *)
Definition fresh_room (rid : value) (s : sid) (now : timestamp) : StreamRoom :=
  {| room_id := rid; host_id := s; viewers := ∅; chat_history := [];
     created_at := now; stream_active := false |}.

(** The two fixed messages of the server. *)
Definition stream_ended (k : key) : emission :=
  emit_room "stream_ended" {[ "message" := VStr "Host disconnected" ]}
            (key_value k).

Definition room_not_found : emission :=
  emit "error" {[ "message" := VStr "Room not found" ]}.

(** The [viewer_left] broadcast for a departed viewer [v]. *)
Definition viewer_left (v : sid) (k : key) (count : nat) : emission :=
  emit_room "viewer_left"
    {[ "viewer_id" := VStr v; "viewer_count" := VInt (Z.of_nat count) ]}
    (key_value k).

(** ** Sample sessions *)

Definition data_r1 : pydict := {[ "room_id" := VStr "r1" ]}.

Definition data_bob : pydict :=
  {[ "room_id" := VStr "r1"; "username" := VStr "Bob" ]}.

(** [A] creates [r1]; [B] and [C] join it. *)
Definition st_room : state :=
  (run [("A", CreateRoom "t0" data_r1); ("B", JoinRoom data_bob);
        ("C", JoinRoom data_r1)] init).1.

Definition room_r1 : StreamRoom :=
  {| room_id := VStr "r1"; host_id := "A"; viewers := {[ "B"; "C" ]};
     chat_history := []; created_at := "t0"; stream_active := false |}.

(** [A] creates [r1] and joins its own room as a viewer; [B] joins too. *)
Definition st_host_views : state :=
  (run [("A", CreateRoom "t0" data_r1); ("A", JoinRoom data_r1);
        ("B", JoinRoom data_bob)] init).1.

Definition room_host_views : StreamRoom :=
  {| room_id := VStr "r1"; host_id := "A"; viewers := {[ "A"; "B" ]};
     chat_history := []; created_at := "t0"; stream_active := false |}.

(** One hundred and fifty [stream_stats] events for [r1], numbered. *)
Definition stats_burst : list (sid * event) :=
  (λ i, ("A", StreamStats "t"
                {[ "room_id" := VStr "r1"; "stats" := VInt (Z.of_nat i) ]}))
    <$> seq 0 150.

(** [A] creates [r1] and reports one statistics sample for it. *)
Definition st_stats : state :=
  (run [("A", CreateRoom "t0" data_r1);
        ("A", StreamStats "t1" {[ "room_id" := VStr "r1"; "stats" := VInt 7 ]})]
       init).1.

(** [A] has created [r1] and nobody has joined yet. *)
Definition st_created : state :=
  (run [("A", CreateRoom "t0" data_r1)] init).1.

(** The payload of an event ([connect] and [disconnect] carry none). *)
Definition event_data (e : event) : pydict :=
  match e with
  | Connect | Disconnect => ∅
  | CreateRoom _ d | JoinRoom d | StartStream d | StopStream d | Offer d
  | Answer d | IceCandidate d | ChatMessage _ d | StreamStats _ d => d
  end.

(** The same event with its payload rewritten. *)
Definition map_data (g : pydict → pydict) (e : event) : event :=
  match e with
  | Connect => Connect
  | Disconnect => Disconnect
  | CreateRoom now d => CreateRoom now (g d)
  | JoinRoom d => JoinRoom (g d)
  | StartStream d => StartStream (g d)
  | StopStream d => StopStream (g d)
  | Offer d => Offer (g d)
  | Answer d => Answer (g d)
  | IceCandidate d => IceCandidate (g d)
  | ChatMessage now d => ChatMessage now (g d)
  | StreamStats now d => StreamStats now (g d)
  end.

(** What the handlers read for a field the payload lacks:
    [data.get('username', 'Anonymous')], and [data.get(f)] otherwise. *)
Definition field_default (f : string) : value :=
  if decide (f = "username") then VStr "Anonymous" else VNone.

(** ** The observability routes and further notions *)

(** One element of the list [get_rooms] hands to [jsonify]. *)
Record room_info := mkRoomInfo {
  info_room_id : value;
  info_viewer_count : nat;
  info_stream_active : bool;
  info_created_at : timestamp;
}.

(** [GET /api/rooms]: one entry per item of [active_rooms], with the key
    as [room_id].  The table is walked in the order of [map_to_list]. *)
Definition get_rooms (st : state) : list room_info :=
  (λ item : key * StreamRoom,
     mkRoomInfo (key_value item.1) (get_viewer_count item.2)
                (stream_active item.2) (created_at item.2))
    <$> map_to_list (active_rooms st).

(** The dict [handle_chat_message] builds, stores and broadcasts. *)
Definition chat_data (now : timestamp) (data : pydict) : pydict :=
  {[ "username" := get_default data "username" (VStr "Anonymous");
     "message" := get data "message";
     "timestamp" := VStr now ]}.

(** A [chat_message] event whose [room_id] hashes to [k]. *)
Definition chat_event_for (k : key) (ev : sid * event) : bool :=
  match ev.2 with
  | ChatMessage _ data =>
      match hash_key (get data "room_id") with
      | Ok k' => bool_decide (k' = k)
      | _ => false
      end
  | _ => false
  end.

(** The chat entries a run of [chat_message] events appends, in order. *)
Definition chat_entries (evs : list (sid * event)) : list pydict :=
  flat_map (λ ev, match ev.2 with
                  | ChatMessage now data => [chat_data now data]
                  | _ => []
                  end) evs.

(** [s] is the host or a viewer of the room. *)
Definition in_room (s : sid) (room : StreamRoom) : bool :=
  bool_decide (s = host_id room) || bool_decide (s ∈ viewers room).


(** Every statistics log holds between one and a hundred entries. *)
Definition stats_bounded (st : state) : Prop :=
  ∀ k log, stream_stats st !! k = Some log → 1 ≤ length log ≤ 100.

(** Every room sits under the key its own [room_id] hashes to. *)
Definition keys_agree (st : state) : Prop :=
  ∀ k room, active_rooms st !! k = Some room → hash_key (room_id room) = Ok k.

(** [A] creates [r1] and [r2]; [B] joins both; [C] joins [r2]. *)
Definition data_r2 : pydict := {[ "room_id" := VStr "r2" ]}.

Definition st_two_rooms : state :=
  (run [("A", CreateRoom "t0" data_r1); ("A", CreateRoom "t1" data_r2);
        ("B", JoinRoom data_r1); ("B", JoinRoom data_r2);
        ("C", JoinRoom data_r2)] init).1.

Definition data_chat : pydict :=
  {[ "room_id" := VStr "r1"; "username" := VStr "Bob";
     "message" := VStr "hi" ]}.

(** ** Sessions of connected clients *)

Definition data_none : pydict := ∅.

Definition data_empty : pydict := {[ "room_id" := VStr "" ]}.


(** [A], [B] and [C] are connected and in no room. *)
Definition st_online : state :=
  (run [("A", Connect); ("B", Connect); ("C", Connect)] init).1.

(** [A] creates a room without [room_id], so under [None]; [B] joins it
    the same way. *)
Definition st_none_room : state :=
  (run [("A", CreateRoom "t0" data_none); ("B", JoinRoom data_none)]
       st_online).1.

(** The same with the empty string for [room_id]; [C] stays outside. *)
Definition st_empty_room : state :=
  (run [("A", CreateRoom "t0" data_empty); ("B", JoinRoom data_empty)]
       st_online).1.

(** [A] creates [r1] and [B] joins; [C] creates [r1] anew; [D] joins. *)
Definition st_replaced : state :=
  (run [("D", Connect); ("A", CreateRoom "t0" data_r1);
        ("B", JoinRoom data_r1); ("C", CreateRoom "t1" data_r1);
        ("D", JoinRoom data_r1)] st_online).1.

(** An offer addressed to [target]. *)
Definition data_offer (target : value) : pydict :=
  {[ "target_id" := target; "offer" := VStr "sdp" ]}.

Definition data_offer_untargeted : pydict := {[ "offer" := VStr "sdp" ]}.

Definition offer_from_A (target : value) : emission :=
  emit_room "offer" {[ "offer" := VStr "sdp"; "sender_id" := VStr "A" ]}
            target.


(** [A] has created [r1] and [B] has joined it, both connected. *)
Definition st_online_room : state :=
  (run [("A", CreateRoom "t0" data_r1); ("B", JoinRoom data_bob)]
       st_online).1.

(** ** Basic facts *)

Lemma hash_key_value (k : key) : hash_key (key_value k) = Ok k.
Proof. by destruct k. Qed.

Lemma members_enter_room (s : sid) (k k' : key) (st : state) :
  members k' (enter_room s k st)
  = if decide (k = k') then members k st ∪ {[s]} else members k' st.
Proof.
  unfold members at 1, enter_room; simpl.
  rewrite lookup_insert. by destruct (decide (k = k')).
Qed.

Lemma join_room_admitted (s : sid) (k : key) (st : state) :
  join_refused s k st = false → join_room s k st = Ok (enter_room s k st).
Proof. unfold join_room. by intros ->. Qed.

Lemma join_refused_entered (s s' : sid) (k : key) (st : state) tbl :
  join_refused s' k (set_rooms tbl (enter_room s k st)) = join_refused s' k st.
Proof.
  destruct k as [| n | t]; try done.
  unfold join_refused, connected, members; simpl.
  by rewrite lookup_insert_ne.
Qed.

Lemma join_room_inv (s : sid) (k : key) (st st1 : state) :
  join_room s k st = Ok st1 →
  join_refused s k st = false ∧ st1 = enter_room s k st.
Proof.
  unfold join_room. destruct (join_refused s k st); [done |].
  by intros [= <-].
Qed.

Lemma members_leave_all (s : sid) (k : key) (st : state) :
  members k (leave_all s st) = members k st ∖ {[s]}.
Proof.
  unfold members, leave_all; simpl. rewrite lookup_fmap.
  destruct (groups st !! k); simpl; [done |].
  symmetry. apply leibniz_equiv, difference_disjoint, disjoint_empty_l.
Qed.

Lemma slice_last_length {A} (n : nat) (l : list A) :
  length (slice_last n l) = length l `min` n.
Proof. unfold slice_last. rewrite length_drop. lia. Qed.

Lemma slice_last_short {A} (n : nat) (l : list A) :
  length l ≤ n → slice_last n l = l.
Proof. intros H. unfold slice_last. by replace (length l - n) with 0 by lia. Qed.

Lemma slice_last_app {A} (n : nat) (l l2 : list A) :
  slice_last n (slice_last n l ++ l2) = slice_last n (l ++ l2).
Proof.
  destruct (decide (length l ≤ n)) as [Hle | Hgt].
  - by rewrite (slice_last_short n l).
  - unfold slice_last at 1 3.
    rewrite !length_app, slice_last_length.
    replace (length l `min` n + length l2 - n) with (length l2) by lia.
    replace (length l + length l2 - n) with ((length l - n) + length l2) by lia.
    rewrite <- drop_drop. f_equal. unfold slice_last.
    by rewrite drop_app_le by lia.
Qed.

(** ** The loop of [handle_disconnect] *)

Section disconnect.
Variable s : sid.

Lemma disconnect_room_out tbl out item :
  (disconnect_room s (tbl, out) item).2 = out ++ disconnect_out s item.
Proof.
  destruct item as [k room]. unfold disconnect_out, disconnect_room.
  repeat case_decide; simpl; by rewrite ?app_nil_r.
Qed.

Lemma disconnect_room_tbl tbl out k room k' :
  (disconnect_room s (tbl, out) (k, room)).1 !! k'
  = if decide (k = k')
    then (if decide (s = host_id room) then None
          else if decide (s ∈ viewers room) then Some (remove_viewer s room)
          else tbl !! k')
    else tbl !! k'.
Proof.
  unfold disconnect_room. repeat case_decide; simpl; simplify_map_eq; done.
Qed.

Lemma foldl_disconnect_out l tbl out :
  (foldl (disconnect_room s) (tbl, out) l).2
  = out ++ flat_map (disconnect_out s) l.
Proof.
  revert tbl out. induction l as [| item l IH]; intros tbl out; cbn [foldl flat_map].
  - by rewrite app_nil_r.
  - destruct (disconnect_room s (tbl, out) item) as [tbl' out'] eqn:E.
    rewrite IH, app_assoc. f_equal.
    change out' with (tbl', out').2. by rewrite <- E, disconnect_room_out.
Qed.

Lemma foldl_disconnect_other l tbl out k :
  k ∉ l.*1 → (foldl (disconnect_room s) (tbl, out) l).1 !! k = tbl !! k.
Proof.
  revert tbl out. induction l as [| [k0 r0] l IH]; intros tbl out Hk; [done |].
  cbn [foldl]. rewrite fmap_cons in Hk.
  apply not_elem_of_cons in Hk as [Hne Hk].
  destruct (disconnect_room s (tbl, out) (k0, r0)) as [tbl' out'] eqn:E.
  rewrite IH by done.
  change tbl' with (tbl', out').1. rewrite <- E, disconnect_room_tbl.
  by rewrite decide_False by done.
Qed.

Lemma foldl_disconnect_entry l tbl out k room :
  NoDup l.*1 → (k, room) ∈ l → tbl !! k = Some room →
  (foldl (disconnect_room s) (tbl, out) l).1 !! k = disconnect_entry s room.
Proof.
  revert tbl out.
  induction l as [| [k0 r0] l IH]; intros tbl out Hnd Hin Htbl.
  { by apply elem_of_nil in Hin. }
  cbn [foldl]. rewrite fmap_cons in Hnd.
  apply NoDup_cons in Hnd as [Hk0 Hnd]. cbn [fst] in Hk0.
  destruct (disconnect_room s (tbl, out) (k0, r0)) as [tbl' out'] eqn:E.
  assert (Hl : ∀ k', tbl' !! k'
               = (disconnect_room s (tbl, out) (k0, r0)).1 !! k')
    by (by rewrite E).
  apply elem_of_cons in Hin as [Heq | Hin].
  - injection Heq as <- <-.
    rewrite foldl_disconnect_other by done.
    rewrite Hl, disconnect_room_tbl, decide_True by done.
    unfold disconnect_entry. by repeat case_decide.
  - assert (k0 ≠ k).
    { intros ->. apply Hk0. apply list_elem_of_fmap. by exists (k, room). }
    apply IH; [done | done |].
    by rewrite Hl, disconnect_room_tbl, decide_False.
Qed.

Lemma handle_disconnect_rooms st k :
  active_rooms (handle_disconnect s st).1 !! k
  = active_rooms st !! k ≫= disconnect_entry s.
Proof.
  unfold handle_disconnect.
  destruct (foldl _ _ _) as [tbl out] eqn:E; simpl.
  change tbl with (tbl, out).1. rewrite <- E.
  destruct (active_rooms st !! k) as [room |] eqn:Hk; simpl.
  - apply foldl_disconnect_entry; [| | done].
    + apply NoDup_fst_map_to_list.
    + by apply elem_of_map_to_list.
  - rewrite foldl_disconnect_other; [done |].
    intros Hin. apply list_elem_of_fmap in Hin as [[k' r] [-> Hin]].
    apply elem_of_map_to_list in Hin. simpl in *. congruence.
Qed.

Lemma handle_disconnect_out st :
  (handle_disconnect s st).2
  = flat_map (disconnect_out s) (map_to_list (active_rooms st)).
Proof.
  unfold handle_disconnect.
  destruct (foldl _ _ _) as [tbl out] eqn:E; simpl.
  change out with (tbl, out).2. by rewrite <- E, foldl_disconnect_out.
Qed.

Lemma handle_disconnect_frame st :
  stream_stats (handle_disconnect s st).1 = stream_stats st
  ∧ groups (handle_disconnect s st).1 = groups st.
Proof. unfold handle_disconnect. by destruct (foldl _ _ _). Qed.

(** The emissions of one room all go to that room's group. *)
Lemma disconnect_out_to_group k k' room :
  filter (λ e, to_group k e) (disconnect_out s (k', room))
  = if decide (k' = k) then disconnect_out s (k', room) else [].
Proof.
  unfold disconnect_out, disconnect_room; simpl.
  assert (Hto : ∀ name payload,
    to_group k (emit_room name payload (key_value k')) = bool_decide (k' = k)).
  { intros. unfold to_group; simpl. by rewrite hash_key_value. }
  repeat case_decide; try done; subst; cbn [snd].
  all: rewrite ?filter_cons, ?Hto.
  all: rewrite ?bool_decide_true, ?bool_decide_false by done; done.
Qed.

Lemma flat_map_disconnect_to_group l k room :
  NoDup l.*1 → (k, room) ∈ l →
  filter (λ e, to_group k e) (flat_map (disconnect_out s) l)
  = disconnect_out s (k, room).
Proof.
  induction l as [| [k0 r0] l IH]; intros Hnd Hin.
  { by apply elem_of_nil in Hin. }
  cbn [flat_map]. rewrite fmap_cons in Hnd.
  apply NoDup_cons in Hnd as [Hk0 Hnd]. cbn [fst] in Hk0.
  rewrite filter_app, disconnect_out_to_group.
  apply elem_of_cons in Hin as [Heq | Hin].
  - injection Heq as <- <-. rewrite decide_True by done.
    rewrite <- (app_nil_r (disconnect_out s (k, room))) at 2. f_equal.
    clear IH Hnd. induction l as [| [k1 r1] l IH]; [done |].
    cbn [flat_map]. rewrite fmap_cons in Hk0.
    apply not_elem_of_cons in Hk0 as [Hne Hk0]. cbn [fst] in Hne.
    rewrite filter_app, disconnect_out_to_group, decide_False by done.
    by apply IH.
  - rewrite decide_False; [by apply IH |].
    intros ->. apply Hk0. apply list_elem_of_fmap. by exists (k, room).
Qed.

Lemma handle_disconnect_to_group st k room :
  active_rooms st !! k = Some room →
  filter (λ e, to_group k e) (handle_disconnect s st).2
  = disconnect_out s (k, room).
Proof.
  intros Hk. rewrite handle_disconnect_out.
  apply flat_map_disconnect_to_group.
  - apply NoDup_fst_map_to_list.
  - by apply elem_of_map_to_list.
Qed.
End disconnect.

(** ** The group invariant *)

Lemma members_set_rooms tbl st k : members k (set_rooms tbl st) = members k st.
Proof. done. Qed.

Lemma wf_init : wf init.
Proof. intros k room Hk. cbn in Hk. by rewrite lookup_empty in Hk. Qed.

Lemma wf_update st k room room' :
  wf st → active_rooms st !! k = Some room →
  host_id room' = host_id room → viewers room' = viewers room →
  wf (set_rooms (<[k := room']> (active_rooms st)) st).
Proof.
  intros Hwf Hk Hh Hv k' r Hr. simpl in Hr. rewrite members_set_rooms.
  rewrite lookup_insert in Hr. case_decide as Hkk.
  - injection Hr as <-. subst k'. rewrite Hh, Hv. by apply Hwf.
  - by apply Hwf.
Qed.

Lemma wf_create_room s now data st r :
  wf st → handle_create_room s now data st = Ok r → wf r.1.
Proof.
  unfold handle_create_room. intros Hwf.
  destruct (hash_key (get data "room_id")) as [k | | |]; [| done ..].
  cbn [bind]. destruct (join_room s k st) as [st1 | | |] eqn:Hj; [| done ..].
  apply join_room_inv in Hj as [_ ->].
  cbn [bind]. intros [= <-]. intros k' room Hr. cbn [fst] in *.
  rewrite members_set_rooms, members_enter_room. simpl in Hr.
  rewrite lookup_insert in Hr. case_decide as Hkk.
  - injection Hr as <-. simpl. set_solver.
  - by apply Hwf.
Qed.

Lemma wf_join_room s data st r :
  wf st → handle_join_room s data st = Ok r → wf r.1.
Proof.
  unfold handle_join_room. intros Hwf.
  destruct (hash_key (get data "room_id")) as [k | | |]; [| done ..].
  cbn [bind]. destruct (active_rooms st !! k) as [room |] eqn:Hk.
  - destruct (join_room s k st) as [st1 | | |] eqn:Hj; [| done ..].
    apply join_room_inv in Hj as [_ ->].
    cbn [bind]. intros [= <-]. intros k' room' Hr. cbn [fst] in *.
    rewrite members_set_rooms, members_enter_room. simpl in Hr.
    rewrite lookup_insert in Hr. case_decide as Hkk.
    + injection Hr as <-. simpl. destruct (Hwf k room Hk). set_solver.
    + by apply Hwf.
  - by intros [= <-].
Qed.

(** The handlers that update a room under [if room_id in active_rooms]
    leave its host and its viewers alone. *)
Ltac wf_guarded_update Hwf :=
  destruct (hash_key (get _ "room_id")) as [k | | |]; [| done ..];
  cbn [bind];
  destruct (active_rooms _ !! k) as [room |] eqn:Hk;
  [ intros [= <-]; by eapply wf_update | by intros [= <-] ].

Lemma wf_start_stream data st r :
  wf st → handle_start_stream data st = Ok r → wf r.1.
Proof. unfold handle_start_stream. intros Hwf. wf_guarded_update Hwf. Qed.

Lemma wf_stop_stream data st r :
  wf st → handle_stop_stream data st = Ok r → wf r.1.
Proof. unfold handle_stop_stream. intros Hwf. wf_guarded_update Hwf. Qed.

Lemma wf_chat_message now data st r :
  wf st → handle_chat_message now data st = Ok r → wf r.1.
Proof. unfold handle_chat_message. intros Hwf. wf_guarded_update Hwf. Qed.

Lemma wf_stream_stats now data st r :
  wf st → handle_stream_stats now data st = Ok r → wf r.1.
Proof.
  unfold handle_stream_stats. intros Hwf.
  destruct (hash_key (get data "room_id")) as [k | | |]; [| done ..].
  simpl. by intros [= <-].
Qed.

Lemma on_disconnect_rooms s st k :
  active_rooms (on_disconnect s st).1 !! k
  = active_rooms st !! k ≫= disconnect_entry s.
Proof.
  unfold on_disconnect. rewrite <- handle_disconnect_rooms.
  by destruct (handle_disconnect s st).
Qed.

Lemma on_disconnect_out s st :
  (on_disconnect s st).2 = (handle_disconnect s st).2.
Proof. unfold on_disconnect. by destruct (handle_disconnect s st). Qed.

Lemma on_disconnect_stats s st :
  stream_stats (on_disconnect s st).1 = stream_stats st.
Proof.
  unfold on_disconnect. rewrite <- (proj1 (handle_disconnect_frame s st)).
  by destruct (handle_disconnect s st).
Qed.

Lemma on_disconnect_members s st k :
  members k (on_disconnect s st).1 = members k st ∖ {[s]}.
Proof.
  unfold on_disconnect.
  pose proof (proj2 (handle_disconnect_frame s st)) as Hg.
  destruct (handle_disconnect s st) as [st' out]; simpl in *.
  rewrite members_leave_all. unfold members. by rewrite Hg.
Qed.

Lemma wf_on_disconnect s st : wf st → wf (on_disconnect s st).1.
Proof.
  intros Hwf k room Hr.
  rewrite on_disconnect_rooms in Hr. rewrite on_disconnect_members.
  destruct (active_rooms st !! k) as [room0 |] eqn:Hk; [| done].
  destruct (Hwf k room0 Hk) as [Hh Hv].
  simpl in Hr. unfold disconnect_entry in Hr.
  repeat case_decide; simplify_eq; simpl; set_solver.
Qed.

Lemma wf_enter_room s k st : wf st → wf (enter_room s k st).
Proof.
  intros Hwf k' room Hr. rewrite members_enter_room.
  destruct (Hwf k' room Hr) as [Hh Hv].
  case_decide; [subst k'; set_solver | done].
Qed.

Lemma emit_checked_inv s st e r : emit_checked s st e = Ok r → r = (st, [e]).
Proof.
  unfold emit_checked. destruct (recipients s st e); [| done ..].
  by intros [= <-].
Qed.

Lemma wf_step s e st : wf st → wf (step_total s e st).1.
Proof.
  intros Hwf. unfold step_total.
  destruct (step s e st) as [r | | |] eqn:E; [| done ..].
  destruct e; cbn [step] in E.
  - injection E as <-. by do 2 apply wf_enter_room.
  - injection E as <-. by apply wf_on_disconnect.
  - by eapply wf_create_room.
  - by eapply wf_join_room.
  - by eapply wf_start_stream.
  - by eapply wf_stop_stream.
  - by apply emit_checked_inv in E as ->.
  - by apply emit_checked_inv in E as ->.
  - by apply emit_checked_inv in E as ->.
  - by eapply wf_chat_message.
  - by eapply wf_stream_stats.
Qed.

Lemma wf_run evs st : wf st → wf (run evs st).1.
Proof.
  revert st. induction evs as [| [s e] evs IH]; intros st Hwf; [done |].
  cbn [run]. pose proof (wf_step s e st Hwf) as Hwf1.
  destruct (step_total s e st) as [st1 out1].
  specialize (IH st1 Hwf1). by destruct (run evs st1).
Qed.

(** ** Room teardown on host disconnect *)

Lemma room_active_false rid st :
  room_active rid st = Ok false ↔
  ∃ k, hash_key rid = Ok k ∧ active_rooms st !! k = None.
Proof.
  unfold room_active. destruct (hash_key rid) as [k | | |]; cbn [bind].
  - split.
    + intros [= H]. exists k. split; [done |].
      apply bool_decide_eq_false in H. by apply eq_None_not_Some.
    + intros (k' & [= <-] & Hk). f_equal. apply bool_decide_eq_false.
      by apply eq_None_not_Some.
  - split; [done | by intros (? & ? & ?)].
  - split; [done | by intros (? & ? & ?)].
  - split; [done | by intros (? & ? & ?)].
Qed.

Lemma recipients_room_key s st name payload k :
  falsy (key_value k) = false →
  recipients s st (emit_room name payload (key_value k)) = Ok (members k st).
Proof.
  intros Hf. unfold recipients; cbn [ev_dest ev_include_self emit_room].
  destruct k as [| n | t]; [done | |]; cbn [key_value] in *.
  all: unfold room_participants; rewrite Hf; reflexivity.
Qed.

Lemma handle_join_room_absent s data st k :
  hash_key (get data "room_id") = Ok k → active_rooms st !! k = None →
  handle_join_room s data st = Ok (st, [room_not_found]).
Proof. intros Hh Hk. unfold handle_join_room. by rewrite Hh; cbn [bind]; rewrite Hk. Qed.

(** Against C1 as stated.  A room made by a [create_room] without
    [room_id] sits under [None]: when its host goes, [stream_ended] is
    emitted with [room=None] and comes back to the host alone, so the
    viewer [B] is not reached.  A room under the empty string has its
    [stream_ended] sent to every connected client, [C] included, who is
    not in the room's group. *)
Lemma stream_ended_goes_astray :
  host_id <$> active_rooms st_none_room !! KNone = Some "A"
  ∧ viewers <$> active_rooms st_none_room !! KNone = Some {[ "B" ]}
  ∧ (on_disconnect "A" st_none_room).2 = [stream_ended KNone]
  ∧ recipients "A" st_none_room (stream_ended KNone) = Ok {[ "A" ]}
  ∧ host_id <$> active_rooms st_empty_room !! KStr "" = Some "A"
  ∧ (on_disconnect "A" st_empty_room).2 = [stream_ended (KStr "")]
  ∧ members (KStr "") st_empty_room = {[ "A"; "B" ]}
  ∧ recipients "A" st_empty_room (stream_ended (KStr ""))
    = Ok {[ "A"; "B"; "C" ]}.
Proof. split_and!; vm_compute; reflexivity. Qed.

(** C1 (amended). When the host [h] of a room whose id is not [None],
    [''] or [0] disconnects, exactly one event names the room's id for
    its [room], the [stream_ended] message; it is sent to the members of
    the room's group, and every viewer of the room is one of them; the
    room leaves [active_rooms], and a later [join_room] for its id is
    answered with "Room not found". *)
Theorem host_disconnect_ends_room (st : state) (h : sid) (k : key)
    (room : StreamRoom) :
  wf st →
  active_rooms st !! k = Some room →
  host_id room = h →
  falsy (key_value k) = false →
  filter (λ e, to_group k e) (on_disconnect h st).2 = [stream_ended k]
  ∧ recipients h st (stream_ended k) = Ok (members k st)
  ∧ viewers room ⊆ members k st
  ∧ active_rooms (on_disconnect h st).1 !! k = None
  ∧ room_active (key_value k) (on_disconnect h st).1 = Ok false
  ∧ ∀ s data, hash_key (get data "room_id") = Ok k →
      handle_join_room s data (on_disconnect h st).1
      = Ok ((on_disconnect h st).1, [room_not_found]).
Proof.
  intros Hwf Hk Hh Hf.
  assert (Hgone : active_rooms (on_disconnect h st).1 !! k = None).
  { rewrite on_disconnect_rooms, Hk. simpl. unfold disconnect_entry.
    by rewrite decide_True. }
  split_and!.
  - rewrite on_disconnect_out, (handle_disconnect_to_group h st k room Hk).
    unfold disconnect_out, disconnect_room. by rewrite decide_True.
  - by apply recipients_room_key.
  - by apply (Hwf k room).
  - done.
  - apply room_active_false. exists k. by rewrite hash_key_value.
  - intros s data Hd. by apply (handle_join_room_absent _ _ _ k).
Qed.

Lemma st_room_lookup : active_rooms st_room !! KStr "r1" = Some room_r1.
Proof. vm_compute. reflexivity. Qed.

Lemma st_online_room_lookup :
  active_rooms st_online_room !! KStr "r1"
  = Some (add_viewer "B" (fresh_room (VStr "r1") "A" "t0")).
Proof. vm_compute. reflexivity. Qed.

Lemma host_disconnect_ends_room_witness :
  wf st_online_room
  ∧ active_rooms st_online_room !! KStr "r1"
    = Some (add_viewer "B" (fresh_room (VStr "r1") "A" "t0"))
  ∧ falsy (key_value (KStr "r1")) = false
  ∧ filter (λ e, to_group (KStr "r1") e) (on_disconnect "A" st_online_room).2
    = [stream_ended (KStr "r1")]
  ∧ recipients "A" st_online_room (stream_ended (KStr "r1"))
    = Ok (members (KStr "r1") st_online_room)
  ∧ members (KStr "r1") st_online_room = {[ "A"; "B" ]}
  ∧ active_rooms (on_disconnect "A" st_online_room).1 !! KStr "r1" = None.
Proof.
  assert (Hwf : wf st_online_room) by (do 2 apply wf_run; apply wf_init).
  pose proof st_online_room_lookup as Hk.
  assert (Hf : falsy (key_value (KStr "r1")) = false) by reflexivity.
  destruct (host_disconnect_ends_room st_online_room "A" (KStr "r1") _
              Hwf Hk eq_refl Hf) as (Hout & Hrec & _ & Hgone & _).
  split_and!; [exact Hwf | exact Hk | exact Hf | exact Hout | exact Hrec
              | vm_compute; reflexivity | exact Hgone].
Defined.

(** ** [join_room] on a room that is not active *)



(** ** Viewer disconnect *)

(** Against C3 as stated.  A connection that is both the host and a
    viewer of a room takes the room down when it disconnects: the host
    branch of the loop wins and no [viewer_left] is sent.  In the room
    under [None] the [viewer_left] of [B] is emitted with [room=None] and
    comes back to [B] alone, so the host is not reached.  And after [C]
    has replaced the room [r1] of [A] and [B], the [viewer_left] of [D]
    is sent to [A] and [B] as well, who are in the group but are neither
    host nor viewer of the room. *)
Lemma viewer_left_exceptions :
  (active_rooms st_host_views !! KStr "r1" = Some room_host_views
   ∧ "A" ∈ viewers room_host_views
   ∧ active_rooms (on_disconnect "A" st_host_views).1 !! KStr "r1" = None
   ∧ (on_disconnect "A" st_host_views).2 = [stream_ended (KStr "r1")])
  ∧ (active_rooms st_none_room !! KNone
     = Some (add_viewer "B" (fresh_room VNone "A" "t0"))
     ∧ (on_disconnect "B" st_none_room).2 = [viewer_left "B" KNone 0]
     ∧ recipients "B" st_none_room (viewer_left "B" KNone 0) = Ok {[ "B" ]})
  ∧ (active_rooms st_replaced !! KStr "r1"
     = Some (add_viewer "D" (fresh_room (VStr "r1") "C" "t1"))
     ∧ (on_disconnect "D" st_replaced).2 = [viewer_left "D" (KStr "r1") 0]
     ∧ recipients "D" st_replaced (viewer_left "D" (KStr "r1") 0)
       = Ok {[ "A"; "B"; "C"; "D" ]}).
Proof. split_and!; vm_compute; reflexivity. Qed.

(** C3 (amended). When a viewer [v] of a room that [v] does not host,
    and whose id is not [None], [''] or [0], disconnects, the room stays
    in [active_rooms] with [v] taken out of its viewer set and every
    other field as before; the viewer count drops by one; exactly one
    event names the room's id for its [room], the [viewer_left] message
    with the new count, and it is sent to the members of the room's
    group.  Once [v] is gone these are the group's old members without
    [v]: the host and the remaining viewers are among them, and they are
    exactly the host and the remaining viewers when the group held
    nobody but the host and the viewers of the room. *)
Theorem viewer_disconnect_keeps_room (st : state) (v : sid) (k : key)
    (room : StreamRoom) :
  wf st →
  active_rooms st !! k = Some room →
  v ∈ viewers room →
  v ≠ host_id room →
  falsy (key_value k) = false →
  let room' := remove_viewer v room in
  let st' := (on_disconnect v st).1 in
  active_rooms st' !! k = Some room'
  ∧ viewers room' = viewers room ∖ {[v]}
  ∧ (room_id room', host_id room', chat_history room', created_at room',
     stream_active room')
    = (room_id room, host_id room, chat_history room, created_at room,
       stream_active room)
  ∧ get_viewer_count room' + 1 = get_viewer_count room
  ∧ filter (λ e, to_group k e) (on_disconnect v st).2
    = [viewer_left v k (get_viewer_count room')]
  ∧ recipients v st (viewer_left v k (get_viewer_count room'))
    = Ok (members k st)
  ∧ members k st' = members k st ∖ {[v]}
  ∧ host_id room ∈ members k st'
  ∧ viewers room' ⊆ members k st'
  ∧ (v ∉ members k st')
  ∧ (members k st = {[host_id room]} ∪ viewers room →
     members k st' = {[host_id room]} ∪ viewers room').
Proof.
  intros Hwf Hk Hv Hh Hf room' st'. subst room' st'.
  destruct (Hwf k room Hk) as [Hhost Hview].
  split_and!; try done.
  - rewrite on_disconnect_rooms, Hk. simpl. unfold disconnect_entry.
    by rewrite decide_False, decide_True.
  - unfold get_viewer_count; simpl.
    rewrite size_difference by set_solver. rewrite size_singleton.
    assert (size (viewers room) ≠ 0); [| lia].
    intros Hz%size_empty_inv. set_solver.
  - rewrite on_disconnect_out, (handle_disconnect_to_group v st k room Hk).
    unfold disconnect_out, disconnect_room.
    by rewrite decide_False, decide_True.
  - by apply recipients_room_key.
  - apply on_disconnect_members.
  - rewrite on_disconnect_members. set_solver.
  - rewrite on_disconnect_members. simpl. set_solver.
  - rewrite on_disconnect_members. set_solver.
  - intros Hex. rewrite on_disconnect_members, Hex. simpl. set_solver.
Qed.

Lemma viewer_disconnect_keeps_room_witness :
  let room := add_viewer "B" (fresh_room (VStr "r1") "A" "t0") in
  wf st_online_room
  ∧ active_rooms st_online_room !! KStr "r1" = Some room
  ∧ "B" ∈ viewers room
  ∧ ("B" ≠ host_id room)
  ∧ falsy (key_value (KStr "r1")) = false
  ∧ members (KStr "r1") st_online_room = {[host_id room]} ∪ viewers room
  ∧ active_rooms (on_disconnect "B" st_online_room).1 !! KStr "r1"
    = Some (remove_viewer "B" room)
  ∧ filter (λ e, to_group (KStr "r1") e) (on_disconnect "B" st_online_room).2
    = [viewer_left "B" (KStr "r1") (get_viewer_count (remove_viewer "B" room))]
  ∧ recipients "B" st_online_room
      (viewer_left "B" (KStr "r1") (get_viewer_count (remove_viewer "B" room)))
    = Ok (members (KStr "r1") st_online_room)
  ∧ members (KStr "r1") (on_disconnect "B" st_online_room).1
    = {[host_id room]} ∪ viewers (remove_viewer "B" room).
Proof.
  intros room.
  assert (Hwf : wf st_online_room) by (do 2 apply wf_run; apply wf_init).
  pose proof st_online_room_lookup as Hk.
  assert (Hv : "B" ∈ viewers room) by (vm_compute; reflexivity).
  assert (Hh : "B" ≠ host_id room) by (simpl; discriminate).
  assert (Hf : falsy (key_value (KStr "r1")) = false) by reflexivity.
  assert (Hex : members (KStr "r1") st_online_room
                = {[host_id room]} ∪ viewers room)
    by (vm_compute; reflexivity).
  destruct (viewer_disconnect_keeps_room st_online_room "B" (KStr "r1") room
              Hwf Hk Hv Hh Hf)
    as (Hroom & _ & _ & _ & Hout & Hrec & _ & _ & _ & _ & Hexact).
  split_and!; [exact Hwf | exact Hk | exact Hv | exact Hh | exact Hf
              | exact Hex | exact Hroom | exact Hout | exact Hrec
              | exact (Hexact Hex)].
Defined.

(** ** The statistics log *)

Lemma handle_stream_stats_log now data st k :
  hash_key (get data "room_id") = Ok k →
  handle_stream_stats now data st
  = Ok (set_stats
          (<[k := slice_last 100 (default [] (stream_stats st !! k)
                                  ++ [stats_entry now (get data "stats")])]>
             (stream_stats st)) st, []).
Proof.
  intros Hh. unfold handle_stream_stats. rewrite Hh; cbn [bind].
  case_decide; [done |]. by rewrite slice_last_short by lia.
Qed.

Lemma run_stats_log k evs st :
  forallb (stats_event_for k) evs = true →
  (run evs st).2 = []
  ∧ active_rooms (run evs st).1 = active_rooms st
  ∧ groups (run evs st).1 = groups st
  ∧ length (stats_entries evs) = length evs
  ∧ stream_stats (run evs st).1 !! k
    = match evs with
      | [] => stream_stats st !! k
      | _ => Some (slice_last 100 (default [] (stream_stats st !! k)
                                   ++ stats_entries evs))
      end.
Proof.
  revert st. induction evs as [| [s e] evs IH]; intros st Hall; [done |].
  cbn [forallb] in Hall. apply andb_prop in Hall as [He Hall].
  unfold stats_event_for in He; cbn [snd] in He.
  destruct e as [| | | | | | | | | | now data]; try done.
  destruct (hash_key (get data "room_id")) as [k' | | |] eqn:Hh; [| done ..].
  apply bool_decide_eq_true in He as ->.
  cbn [run]. unfold step_total; cbn [step].
  rewrite (handle_stream_stats_log now data st k Hh).
  set (st1 := set_stats _ st).
  destruct (IH st1 Hall) as (Hout & Hrooms & Hgroups & Hlen & Hlog).
  destruct (run evs st1) as [st2 out2]; cbn [fst snd] in *.
  split_and!; [by rewrite Hout | done | done | simpl; by f_equal |].
  subst st1; cbn [stream_stats set_stats] in Hlog.
  rewrite lookup_insert_eq in Hlog; cbn [default] in Hlog.
  unfold id in Hlog. rewrite Hlog.
  change (stats_entries ((s, StreamStats now data) :: evs))
    with ([stats_entry now (get data "stats")] ++ stats_entries evs).
  destruct evs as [| ev evs']; [by rewrite app_nil_r |].
  by rewrite slice_last_app, <- app_assoc.
Qed.

(** C4. After any non-empty run of [stream_stats] events for one room the
    room's log is the last hundred of the entries it held before followed
    by the appended ones, in order, so it never holds more than a hundred;
    after 150 events it is exactly the last hundred appended, the first
    fifty dropped. *)
Theorem stats_log_keeps_last_100 (st : state) (k : key)
    (evs : list (sid * event)) :
  forallb (stats_event_for k) evs = true →
  evs ≠ [] →
  let old := default [] (stream_stats st !! k) in
  let log := slice_last 100 (old ++ stats_entries evs) in
  stream_stats (run evs st).1 !! k = Some log
  ∧ length log ≤ 100
  ∧ (length evs = 150 →
     log = drop 50 (stats_entries evs) ∧ length log = 100).
Proof.
  intros Hall Hne old log.
  destruct (run_stats_log k evs st Hall) as (_ & _ & _ & Hlen & Hlog).
  split_and!.
  - rewrite Hlog. by destruct evs.
  - subst log. rewrite slice_last_length. lia.
  - intros H150. subst log. unfold slice_last.
    rewrite length_app, Hlen, H150.
    replace (length old + 150 - 100) with (length old + 50) by lia.
    rewrite drop_app_add. split; [done |].
    rewrite length_drop, Hlen, H150. done.
Qed.

Lemma stats_log_keeps_last_100_witness :
  forallb (stats_event_for (KStr "r1")) stats_burst = true
  ∧ stats_burst ≠ []
  ∧ length stats_burst = 150
  ∧ stream_stats (run stats_burst init).1 !! KStr "r1"
    = Some (drop 50 (stats_entries stats_burst)).
Proof.
  assert (Hall : forallb (stats_event_for (KStr "r1")) stats_burst = true)
    by (vm_compute; reflexivity).
  assert (Hne : stats_burst ≠ []) by (vm_compute; discriminate).
  assert (Hlen : length stats_burst = 150) by (vm_compute; reflexivity).
  destruct (stats_log_keeps_last_100 init (KStr "r1") stats_burst Hall Hne)
    as (Hlog & _ & H150).
  destruct (H150 Hlen) as [Heq _].
  split_and!; [done | done | done |]. by rewrite Hlog, Heq.
Defined.

(** ** Signalling relay *)

(** Against C5 as stated.  An [offer] without [target_id] is emitted
    with [room=None] and comes back to its sender; one whose [target_id]
    is the empty string or [0] is sent to every connected client; one
    whose [target_id] is a non-empty dict makes the library raise
    [KeyError] out of the handler, and so for [answer] and
    [ice_candidate]. *)
Lemma relay_goes_astray :
  handle_offer "A" data_offer_untargeted st_online
  = Ok (st_online, [offer_from_A VNone])
  ∧ recipients "A" st_online (offer_from_A VNone) = Ok {[ "A" ]}
  ∧ handle_offer "A" (data_offer (VStr "")) st_online
    = Ok (st_online, [offer_from_A (VStr "")])
  ∧ recipients "A" st_online (offer_from_A (VStr ""))
    = Ok {[ "A"; "B"; "C" ]}
  ∧ recipients "A" st_online (offer_from_A (VInt 0))
    = Ok {[ "A"; "B"; "C" ]}
  ∧ handle_offer "A" (data_offer (VDict [("id", VStr "B")])) st_online
    = KeyError
  ∧ handle_answer "A" (data_offer (VDict [("id", VStr "B")])) st_online
    = KeyError
  ∧ handle_ice_candidate "A" (data_offer (VDict [("id", VStr "B")])) st_online
    = KeyError.
Proof. split_and!; vm_compute; reflexivity. Qed.

Lemma recipients_sid s st name payload t :
  t ≠ "" →
  recipients s st (emit_room name payload (VStr t)) = Ok (members (KStr t) st).
Proof.
  intros Ht. apply (recipients_room_key s st name payload (KStr t)).
  by destruct t.
Qed.

(** C5 (amended). When the [target_id] of an [offer], [answer] or
    [ice_candidate] is the sid [t] of a connected client, who is alone in
    the group of its own sid, the handler returns with one event; the
    event is sent to [t] and to no other connection; it carries the
    relayed field as it was received and one more field, [sender_id]; the
    state is returned untouched, and the same happens whatever
    [active_rooms] holds, so no membership is consulted. *)
Theorem signalling_relay (s : sid) (data : pydict) (st : state) (t : sid) :
  data !! "target_id" = Some (VStr t) →
  t ≠ "" →
  members (KStr t) st = {[t]} →
  relays "offer" "offer" handle_offer s data st t
  ∧ relays "answer" "answer" handle_answer s data st t
  ∧ relays "candidate" "ice_candidate" handle_ice_candidate s data st t.
Proof.
  intros Htarget Ht Halone.
  assert (Hemit : ∀ st0 name payload,
            emit_checked s st0 (emit_room name payload (VStr t))
            = Ok (st0, [emit_room name payload (VStr t)])).
  { intros. unfold emit_checked. by rewrite recipients_sid. }
  assert (Hrec : ∀ name payload,
            recipients s st (emit_room name payload (VStr t)) = Ok {[t]}).
  { intros. by rewrite recipients_sid, Halone. }
  unfold relays, handle_offer, handle_answer, handle_ice_candidate.
  unfold get. rewrite Htarget; cbn [default].
  split_and!; eexists; cbn zeta.
  all: split; [apply Hemit |].
  all: split; [apply Hrec |].
  all: split_and!; [by simplify_map_eq | by simplify_map_eq | |].
  all: try by rewrite dom_insert_L, dom_singleton_L.
  all: intros tbl; apply Hemit.
Qed.

Lemma signalling_relay_witness :
  data_offer (VStr "B") !! "target_id" = Some (VStr "B")
  ∧ members (KStr "B") st_online = {[ "B" ]}
  ∧ handle_offer "A" (data_offer (VStr "B")) st_online
    = Ok (st_online, [offer_from_A (VStr "B")])
  ∧ recipients "A" st_online (offer_from_A (VStr "B")) = Ok {[ "B" ]}.
Proof.
  assert (Htarget : data_offer (VStr "B") !! "target_id" = Some (VStr "B"))
    by (vm_compute; reflexivity).
  assert (Ht : "B" ≠ "") by discriminate.
  assert (Halone : members (KStr "B") st_online = {[ "B" ]})
    by (vm_compute; reflexivity).
  destruct (signalling_relay "A" (data_offer (VStr "B")) st_online "B"
              Htarget Ht Halone) as ((payload & Hrun & Hrec & _) & _).
  split_and!; [exact Htarget | exact Halone | vm_compute; reflexivity
              | vm_compute; reflexivity].
Defined.

(** ** Room creation over an existing id *)




(** ** Teardown and the logs *)

(** Against C7 as stated: after the host of [r1] has gone the room is
    gone, but the statistics recorded for [r1] are still in [stream_stats] and still served. *)
Lemma stats_survive_teardown :
  host_id <$> active_rooms st_stats !! KStr "r1" = Some "A"
  ∧ active_rooms (on_disconnect "A" st_stats).1 !! KStr "r1" = None
  ∧ stream_stats (on_disconnect "A" st_stats).1 !! KStr "r1"
    = Some [stats_entry "t1" (VInt 7)]
  ∧ get_stats "r1" (on_disconnect "A" st_stats).1
    = [stats_entry "t1" (VInt 7)].
Proof.
  assert (Hs : stream_stats st_stats !! KStr "r1"
               = Some [stats_entry "t1" (VInt 7)])
    by (vm_compute; reflexivity).
  assert (Hk : host_id <$> active_rooms st_stats !! KStr "r1" = Some "A")
    by (vm_compute; reflexivity).
  split_and!; [done | | |].
  - rewrite on_disconnect_rooms.
    destruct (active_rooms st_stats !! KStr "r1") as [room |]; [| done].
    injection Hk as Hk. simpl. unfold disconnect_entry.
    by rewrite decide_True.
  - by rewrite on_disconnect_stats.
  - unfold get_stats. by rewrite on_disconnect_stats, Hs.
Qed.

(** C7 (amended). When the host of a room disconnects the room leaves
    [active_rooms], and its chat history with it; [stream_stats] is left
    as it was, so the statistics of that room id are retrievable as
    before. *)
Theorem teardown_removes_room_keeps_stats (st : state) (h : sid) (k : key)
    (room : StreamRoom) :
  active_rooms st !! k = Some room →
  host_id room = h →
  let st' := (on_disconnect h st).1 in
  active_rooms st' !! k = None
  ∧ stream_stats st' = stream_stats st
  ∧ ∀ rid, get_stats rid st' = get_stats rid st.
Proof.
  intros Hk Hh st'. subst st'. split_and!.
  - rewrite on_disconnect_rooms, Hk. simpl. unfold disconnect_entry.
    by rewrite decide_True.
  - apply on_disconnect_stats.
  - intros rid. unfold get_stats. by rewrite on_disconnect_stats.
Qed.

Lemma teardown_removes_room_keeps_stats_witness :
  active_rooms st_stats !! KStr "r1" = Some (fresh_room (VStr "r1") "A" "t0")
  ∧ get_stats "r1" st_stats = [stats_entry "t1" (VInt 7)]
  ∧ active_rooms (on_disconnect "A" st_stats).1 !! KStr "r1" = None
  ∧ stream_stats (on_disconnect "A" st_stats).1 = stream_stats st_stats
  ∧ get_stats "r1" (on_disconnect "A" st_stats).1
    = [stats_entry "t1" (VInt 7)].
Proof.
  assert (Hk : active_rooms st_stats !! KStr "r1"
               = Some (fresh_room (VStr "r1") "A" "t0"))
    by (vm_compute; reflexivity).
  assert (Hs : get_stats "r1" st_stats = [stats_entry "t1" (VInt 7)])
    by (vm_compute; reflexivity).
  destruct (teardown_removes_room_keeps_stats st_stats "A" (KStr "r1") _
              Hk eq_refl) as (Hgone & Hstats & Hget).
  split_and!; [exact Hk | exact Hs | exact Hgone | exact Hstats |].
  by rewrite Hget.
Defined.

(** ** The viewer set *)

Lemma StreamRoom_eq (r1 r2 : StreamRoom) :
  room_id r1 = room_id r2 → host_id r1 = host_id r2 →
  viewers r1 = viewers r2 → chat_history r1 = chat_history r2 →
  created_at r1 = created_at r2 → stream_active r1 = stream_active r2 →
  r1 = r2.
Proof. destruct r1, r2; simpl; by intros -> -> -> -> -> ->. Qed.

(** C8. Adding a connection that is already a viewer changes nothing, so
    adding twice is adding once; removing twice is removing once, and
    removing a connection that is no viewer changes nothing. *)
Theorem viewer_set_idempotent (c : sid) (room : StreamRoom) :
  (c ∈ viewers room → add_viewer c room = room)
  ∧ add_viewer c (add_viewer c room) = add_viewer c room
  ∧ remove_viewer c (remove_viewer c room) = remove_viewer c room
  ∧ (c ∉ viewers room → remove_viewer c room = room).
Proof.
  split_and!; intros; apply StreamRoom_eq; simpl; try done; set_solver.
Qed.

Lemma viewer_set_idempotent_witness :
  "B" ∈ viewers room_r1
  ∧ add_viewer "B" room_r1 = room_r1
  ∧ remove_viewer "B" (remove_viewer "B" room_r1) = remove_viewer "B" room_r1.
Proof.
  assert (Hv : "B" ∈ viewers room_r1) by (vm_compute; reflexivity).
  destruct (viewer_set_idempotent "B" room_r1) as (Hadd & _ & Hrem & _).
  split_and!; [done | by apply Hadd | done].
Defined.

(** ** Payloads with a missing field *)

(** Against C9 as stated: a [join_room] without [username] is not ignored: the sender becomes a
    viewer under the name "Anonymous" and both notifications go out.  A
    [chat_message] without [message] is broadcast with [None] for text. *)
Lemma join_without_username_is_processed :
  data_r1 !! "username" = None
  ∧ (step_total "B" (JoinRoom data_r1) st_created).2
    = [emit "room_joined"
         {[ "room_id" := VStr "r1"; "viewer_count" := VInt 1;
            "username" := VStr "Anonymous" ]};
       emit_room_others "viewer_joined"
         {[ "viewer_id" := VStr "B"; "username" := VStr "Anonymous";
            "viewer_count" := VInt 1 ]} (VStr "r1")]
  ∧ viewers <$> active_rooms st_created !! KStr "r1" = Some ∅
  ∧ viewers <$> active_rooms (step_total "B" (JoinRoom data_r1) st_created).1
                  !! KStr "r1" = Some {[ "B" ]}
  ∧ data_bob !! "message" = None
  ∧ (step_total "B" (ChatMessage "12:00:00" data_bob) st_created).2
    = [emit_room "chat_message"
         {[ "username" := VStr "Bob"; "message" := VNone;
            "timestamp" := VStr "12:00:00" ]} (VStr "r1")].
Proof. split_and!; vm_compute; reflexivity. Qed.

Lemma get_insert_default (data : pydict) (f k : string) :
  data !! f = None → k ≠ "username" →
  get (<[f := field_default f]> data) k = get data k.
Proof.
  intros Hf Hk. unfold get. rewrite lookup_insert. case_decide as Hfk; [| done].
  subst k. rewrite Hf. unfold field_default. by rewrite decide_False.
Qed.

Lemma get_default_insert_default (data : pydict) (f : string) :
  data !! f = None →
  get_default (<[f := field_default f]> data) "username" (VStr "Anonymous")
  = get_default data "username" (VStr "Anonymous").
Proof.
  intros Hf. unfold get_default. rewrite lookup_insert.
  case_decide as Hfk; [| done]. subst f. by rewrite Hf.
Qed.

(** C9 (amended). A field the payload lacks is read as [None], and
    [username] as "Anonymous"; the event is then handled exactly as if the
    payload had carried that value, state change and emissions included.
    None of the six handlers that look [room_id] up raises because it is
    missing. *)
Theorem missing_field_reads_as_default (s : sid) (e : event) (st : state)
    (f : string) :
  event_data e !! f = None →
  step s e st = step s (map_data (insert f (field_default f)) e) st
  ∧ (f = "room_id" → keyed_event e = true → succeeds (step s e st)).
Proof.
  intros Hf. split.
  - destruct e; cbn [step map_data event_data] in *; try done.
    all: unfold handle_create_room, handle_join_room, handle_start_stream,
           handle_stop_stream, handle_offer, handle_answer,
           handle_ice_candidate, handle_chat_message, handle_stream_stats.
    all: rewrite ?get_default_insert_default by done.
    all: by rewrite !get_insert_default by done.
  - intros -> Hkeyed.
    assert (Hh : hash_key (get (event_data e) "room_id") = Ok KNone).
    { unfold get. by rewrite Hf. }
    destruct e; try discriminate Hkeyed; cbn [step event_data] in *.
    all: unfold handle_create_room, handle_join_room, handle_start_stream,
           handle_stop_stream, handle_chat_message, handle_stream_stats.
    all: rewrite Hh; cbn [bind]; try by eexists.
    all: destruct (active_rooms st !! KNone); by eexists.
Qed.

Lemma missing_field_reads_as_default_witness :
  event_data (JoinRoom data_r1) !! "username" = None
  ∧ step "B" (JoinRoom data_r1) st_created
    = step "B" (JoinRoom (<["username" := VStr "Anonymous"]> data_r1))
           st_created.
Proof.
  assert (Hf : event_data (JoinRoom data_r1) !! "username" = None)
    by (vm_compute; reflexivity).
  split; [exact Hf |].
  exact (proj1 (missing_field_reads_as_default "B" (JoinRoom data_r1)
                  st_created "username" Hf)).
Defined.

(** ** Events for a room that is not active *)

(** C10. [start_stream], [stop_stream] and [chat_message] for a [room_id]
    that is not in [active_rooms] return the state as it was and emit
    nothing, not even an [error] to the sender. *)
Theorem absent_room_is_silent (now : timestamp) (data : pydict) (st : state) :
  room_active (get data "room_id") st = Ok false →
  handle_start_stream data st = Ok (st, [])
  ∧ handle_stop_stream data st = Ok (st, [])
  ∧ handle_chat_message now data st = Ok (st, []).
Proof.
  intros (k & Hh & Hk)%room_active_false.
  unfold handle_start_stream, handle_stop_stream, handle_chat_message.
  rewrite Hh; cbn [bind]. by rewrite Hk.
Qed.

Lemma absent_room_is_silent_witness :
  room_active (get data_r1 "room_id") init = Ok false
  ∧ handle_start_stream data_r1 init = Ok (init, [])
  ∧ handle_stop_stream data_r1 init = Ok (init, [])
  ∧ handle_chat_message "12:00:00" data_r1 init = Ok (init, []).
Proof.
  assert (H : room_active (get data_r1 "room_id") init = Ok false)
    by (vm_compute; reflexivity).
  split; [exact H |]. exact (absent_room_is_silent "12:00:00" data_r1 init H).
Defined.

(** * Further properties of the handlers *)

(** ** Joining an active room *)

Lemma state_eq (st1 st2 : state) :
  active_rooms st1 = active_rooms st2 → stream_stats st1 = stream_stats st2 →
  groups st1 = groups st2 → st1 = st2.
Proof. destruct st1, st2; simpl; by intros -> -> ->. Qed.

Lemma add_viewer_count (s : sid) (room : StreamRoom) :
  get_viewer_count (add_viewer s room)
  = if decide (s ∈ viewers room) then get_viewer_count room
    else S (get_viewer_count room).
Proof.
  unfold get_viewer_count; simpl. case_decide as Hs.
  - f_equal. set_solver.
  - rewrite size_union by set_solver. rewrite size_singleton. lia.
Qed.



(** X2. Joining again is harmless to the state: a [join_room] repeated by
    the same connection with the same payload returns the state of the
    first one unchanged and emits the same events again. *)
Theorem join_room_again (s : sid) (data : pydict) (st st1 : state)
    (out : list emission) :
  handle_join_room s data st = Ok (st1, out) →
  handle_join_room s data st1 = Ok (st1, out).
Proof.
  unfold handle_join_room.
  destruct (hash_key (get data "room_id")) as [k | | |]; [| done ..]. cbn [bind].
  destruct (active_rooms st !! k) as [room |] eqn:Hk.
  - destruct (join_room s k st) as [st0 | | |] eqn:Hj; [| done ..].
    apply join_room_inv in Hj as [Hadm ->]. cbn [bind].
    intros [= <- <-].
    rewrite (join_room_admitted s k _) by (by rewrite join_refused_entered).
    cbn [bind active_rooms set_rooms enter_room].
    rewrite lookup_insert_eq.
    assert (Hadd : add_viewer s (add_viewer s room) = add_viewer s room).
    { apply StreamRoom_eq; simpl; try done. set_solver. }
    rewrite Hadd. f_equal. f_equal.
    apply state_eq; cbn [active_rooms stream_stats groups set_rooms enter_room].
    + by rewrite insert_insert_eq.
    + done.
    + rewrite members_set_rooms, members_enter_room, decide_True by done.
      rewrite insert_insert_eq. f_equal. set_solver.
  - intros [= <- <-]. by rewrite Hk.
Qed.

Lemma join_room_again_witness :
  ∃ st1 out,
    handle_join_room "B" data_bob st_created = Ok (st1, out)
    ∧ handle_join_room "B" data_bob st1 = Ok (st1, out).
Proof.
  destruct (handle_join_room "B" data_bob st_created)
    as [[st1 out] | | |] eqn:E.
  - exists st1, out. split; [done |].
    exact (join_room_again "B" data_bob st_created st1 out E).
  - vm_compute in E. discriminate E.
  - vm_compute in E. discriminate E.
  - vm_compute in E. discriminate E.
Defined.

(** ** The stream flag *)

Lemma set_stream_active_twice (b b' : bool) (room : StreamRoom) :
  set_stream_active b (set_stream_active b' room) = set_stream_active b room.
Proof. by apply StreamRoom_eq. Qed.

(** X3. On an active room [start_stream] raises the flag and
    [stop_stream] lowers it, whoever sends them; nothing else of the room
    changes and each tells the whole room.  The last one wins: stopping
    after a start gives the state that stopping alone gives, and a second
    start changes nothing. *)
Theorem stream_flag_last_write (data : pydict) (st : state) (k : key)
    (room : StreamRoom) :
  hash_key (get data "room_id") = Ok k →
  active_rooms st !! k = Some room →
  let rid := get data "room_id" in
  let started := emit_room "stream_started" {[ "room_id" := rid ]} rid in
  let stopped := emit_room "stream_stopped" {[ "room_id" := rid ]} rid in
  ∃ st1 st2,
    handle_start_stream data st = Ok (st1, [started])
    ∧ active_rooms st1 = <[k := set_stream_active true room]> (active_rooms st)
    ∧ handle_stop_stream data st = Ok (st2, [stopped])
    ∧ active_rooms st2 = <[k := set_stream_active false room]> (active_rooms st)
    ∧ handle_stop_stream data st1 = Ok (st2, [stopped])
    ∧ handle_start_stream data st1 = Ok (st1, [started]).
Proof.
  intros Hh Hk rid started stopped. subst rid started stopped.
  unfold handle_start_stream, handle_stop_stream. rewrite Hh; cbn [bind].
  rewrite Hk. do 2 eexists.
  split; [reflexivity |]. split; [done |].
  split; [reflexivity |]. split; [done |].
  cbn [active_rooms set_rooms]. rewrite lookup_insert_eq.
  rewrite !set_stream_active_twice.
  split; do 2 f_equal; apply state_eq; simpl; by rewrite ?insert_insert_eq.
Qed.

Lemma stream_flag_last_write_witness :
  hash_key (get data_r1 "room_id") = Ok (KStr "r1")
  ∧ active_rooms st_room !! KStr "r1" = Some room_r1
  ∧ ∃ st1 st2,
      handle_start_stream data_r1 st_room
      = Ok (st1, [emit_room "stream_started" {[ "room_id" := VStr "r1" ]}
                    (VStr "r1")])
      ∧ handle_stop_stream data_r1 st1
        = Ok (st2, [emit_room "stream_stopped" {[ "room_id" := VStr "r1" ]}
                      (VStr "r1")])
      ∧ handle_stop_stream data_r1 st_room
        = Ok (st2, [emit_room "stream_stopped" {[ "room_id" := VStr "r1" ]}
                      (VStr "r1")]).
Proof.
  assert (Hh : hash_key (get data_r1 "room_id") = Ok (KStr "r1"))
    by (vm_compute; reflexivity).
  pose proof st_room_lookup as Hk.
  destruct (stream_flag_last_write data_r1 st_room (KStr "r1") room_r1 Hh Hk)
    as (st1 & st2 & H1 & _ & H2 & _ & H3 & _).
  split_and!; [done | done |]. by exists st1, st2.
Defined.

(** ** The chat history *)

Lemma handle_chat_message_active now data st k room :
  hash_key (get data "room_id") = Ok k →
  active_rooms st !! k = Some room →
  handle_chat_message now data st
  = Ok (set_rooms (<[k := append_chat (chat_data now data) room]>
                     (active_rooms st)) st,
        [emit_room "chat_message" (chat_data now data) (get data "room_id")]).
Proof.
  intros Hh Hk. unfold handle_chat_message. rewrite Hh; cbn [bind].
  by rewrite Hk.
Qed.

Lemma run_chat_history k evs st room :
  forallb (chat_event_for k) evs = true →
  active_rooms st !! k = Some room →
  ∃ room',
    active_rooms (run evs st).1 !! k = Some room'
    ∧ chat_history room' = chat_history room ++ chat_entries evs
    ∧ (room_id room', host_id room', viewers room', created_at room',
       stream_active room')
      = (room_id room, host_id room, viewers room, created_at room,
         stream_active room)
    ∧ length (chat_entries evs) = length evs
    ∧ length (run evs st).2 = length evs
    ∧ Forall (λ e, to_group k e ∧ ev_name e = "chat_message") (run evs st).2
    ∧ stream_stats (run evs st).1 = stream_stats st.
Proof.
  revert st room. induction evs as [| [s e] evs IH]; intros st room Hall Hk.
  { exists room. by rewrite app_nil_r. }
  cbn [forallb] in Hall. apply andb_prop in Hall as [He Hall].
  unfold chat_event_for in He; cbn [snd] in He.
  destruct e as [| | | | | | | | | now data |]; try done.
  destruct (hash_key (get data "room_id")) as [k' | | |] eqn:Hh; [| done ..].
  apply bool_decide_eq_true in He as ->.
  cbn [run]. unfold step_total; cbn [step].
  rewrite (handle_chat_message_active now data st k room Hh Hk).
  set (st1 := set_rooms _ st).
  assert (Hk1 : active_rooms st1 !! k
                = Some (append_chat (chat_data now data) room))
    by (subst st1; cbn [active_rooms set_rooms]; by rewrite lookup_insert_eq).
  destruct (IH st1 _ Hall Hk1)
    as (room' & Hroom & Hhist & Hrest & Hlen & Hout & Hdest & Hstats).
  destruct (run evs st1) as [st2 out2]; cbn [fst snd] in *.
  exists room'. split_and!; try done.
  - rewrite Hhist. simpl. by rewrite <- app_assoc.
  - simpl. by f_equal.
  - simpl. by f_equal.
  - apply Forall_cons. split; [| done]. split; [| done].
    unfold to_group; simpl. rewrite Hh. by rewrite bool_decide_true.
Qed.

(** X4. The chat history is never trimmed: after any run of
    [chat_message] events for an active room its history is the old one
    followed by one entry per event, in order, that entry holding the
    username ("Anonymous" if missing), the message and the time; every
    event is answered by one broadcast to the room; the room's other
    fields and the statistics stay as they were. *)
Theorem chat_history_only_grows (st : state) (k : key) (room : StreamRoom)
    (evs : list (sid * event)) :
  forallb (chat_event_for k) evs = true →
  active_rooms st !! k = Some room →
  ∃ room',
    active_rooms (run evs st).1 !! k = Some room'
    ∧ chat_history room' = chat_history room ++ chat_entries evs
    ∧ length (chat_history room') = length (chat_history room) + length evs
    ∧ (room_id room', host_id room', viewers room', created_at room',
       stream_active room')
      = (room_id room, host_id room, viewers room, created_at room,
         stream_active room)
    ∧ length (run evs st).2 = length evs
    ∧ Forall (λ e, to_group k e ∧ ev_name e = "chat_message") (run evs st).2
    ∧ stream_stats (run evs st).1 = stream_stats st.
Proof.
  intros Hall Hk.
  destruct (run_chat_history k evs st room Hall Hk)
    as (room' & Hroom & Hhist & Hrest & Hlen & Hout & Hdest & Hstats).
  exists room'. split_and!; try done.
  by rewrite Hhist, length_app, Hlen.
Qed.

Lemma chat_history_only_grows_witness :
  forallb (chat_event_for (KStr "r1"))
          [("B", ChatMessage "12:00:00" data_chat);
           ("A", ChatMessage "12:00:01" data_r1)] = true
  ∧ active_rooms st_room !! KStr "r1" = Some room_r1
  ∧ ∃ room',
      active_rooms (run [("B", ChatMessage "12:00:00" data_chat);
                         ("A", ChatMessage "12:00:01" data_r1)] st_room).1
        !! KStr "r1" = Some room'
      ∧ chat_history room'
        = [chat_data "12:00:00" data_chat; chat_data "12:00:01" data_r1].
Proof.
  assert (Hall : forallb (chat_event_for (KStr "r1"))
                   [("B", ChatMessage "12:00:00" data_chat);
                    ("A", ChatMessage "12:00:01" data_r1)] = true)
    by (vm_compute; reflexivity).
  pose proof st_room_lookup as Hk.
  destruct (chat_history_only_grows st_room (KStr "r1") room_r1 _ Hall Hk)
    as (room' & Hroom & Hhist & _).
  split_and!; [done | done |]. exists room'. by split.
Defined.

(** ** Disconnect, room by room *)

Lemma in_room_false (s : sid) (room : StreamRoom) :
  in_room s room = false ↔ s ≠ host_id room ∧ s ∉ viewers room.
Proof.
  unfold in_room. rewrite orb_false_iff, !bool_decide_eq_false. done.
Qed.

Lemma disconnect_entry_stranger s room :
  in_room s room = false → disconnect_entry s room = Some room.
Proof.
  intros [Hh Hv]%in_room_false. unfold disconnect_entry.
  by rewrite !decide_False.
Qed.

Lemma disconnect_entry_gone s room room' :
  disconnect_entry s room = Some room' → in_room s room' = false.
Proof.
  unfold disconnect_entry. intros H. apply in_room_false.
  repeat case_decide; simplify_eq; simpl; set_solver.
Qed.

Lemma disconnect_out_cases s k room :
  disconnect_out s (k, room)
  = if decide (s = host_id room) then [stream_ended k]
    else if decide (s ∈ viewers room)
         then [viewer_left s k (get_viewer_count (remove_viewer s room))]
         else [].
Proof. unfold disconnect_out, disconnect_room. by repeat case_decide. Qed.

Lemma disconnect_out_length s item :
  length (disconnect_out s item) = if in_room s item.2 then 1 else 0.
Proof.
  destruct item as [k room]. rewrite disconnect_out_cases. unfold in_room.
  repeat case_decide; simpl.
  all: rewrite ?bool_decide_true, ?bool_decide_false by done; done.
Qed.

Lemma set_rooms_id st : set_rooms (active_rooms st) st = st.
Proof. by destruct st. Qed.

Lemma handle_disconnect_stranger s st :
  (∀ k room, active_rooms st !! k = Some room → in_room s room = false) →
  handle_disconnect s st = (st, []).
Proof.
  intros Hout.
  assert (Hrooms : active_rooms (handle_disconnect s st).1 = active_rooms st).
  { apply map_eq. intros k. rewrite handle_disconnect_rooms.
    destruct (active_rooms st !! k) as [room |] eqn:Hk; [| done].
    simpl. apply disconnect_entry_stranger. by eapply Hout. }
  assert (Hnil : (handle_disconnect s st).2 = []).
  { rewrite handle_disconnect_out. apply length_zero_iff_nil.
    assert (Hall : Forall (λ item, in_room s item.2 = false)
                          (map_to_list (active_rooms st))).
    { apply Forall_forall. intros [k room] Hin.
      apply elem_of_map_to_list in Hin. by eapply Hout. }
    induction Hall as [| item l Hitem _ IH]; [done |].
    cbn [flat_map]. rewrite length_app, disconnect_out_length, Hitem. done. }
  destruct (handle_disconnect_frame s st) as [Hstats Hgroups].
  destruct (handle_disconnect s st) as [st' out]; cbn [fst snd] in *.
  subst out. f_equal. by apply state_eq.
Qed.

(** Settles a statement about every room of a concrete state by walking
    the table. *)
Ltac each_room :=
  let k := fresh "k" in
  let room := fresh "room" in
  let Hk := fresh "Hk" in
  let l := fresh "l" in
  intros k room Hk; apply elem_of_map_to_list in Hk;
  set (l := map_to_list _) in Hk; vm_compute in l; subst l;
  repeat (apply elem_of_cons in Hk as [Hk | Hk];
          [ injection Hk as -> ->; vm_compute; try reflexivity | ]);
  by apply elem_of_nil in Hk.

(** X5. The disconnect of a connection that hosts no room and views none
    leaves the state as it was and emits nothing. *)
Theorem disconnect_of_stranger (s : sid) (st : state) :
  (∀ k room, active_rooms st !! k = Some room → in_room s room = false) →
  handle_disconnect s st = (st, [])
  ∧ active_rooms (on_disconnect s st).1 = active_rooms st
  ∧ stream_stats (on_disconnect s st).1 = stream_stats st
  ∧ (on_disconnect s st).2 = [].
Proof.
  intros Hout. pose proof (handle_disconnect_stranger s st Hout) as Hd.
  split; [done |]. unfold on_disconnect. by rewrite Hd.
Qed.

Lemma disconnect_of_stranger_witness :
  (∀ k room, active_rooms st_room !! k = Some room → in_room "Z" room = false)
  ∧ handle_disconnect "Z" st_room = (st_room, []).
Proof.
  assert (H : ∀ k room, active_rooms st_room !! k = Some room
                        → in_room "Z" room = false).
  { each_room. }
  split; [exact H |]. exact (proj1 (disconnect_of_stranger "Z" st_room H)).
Defined.

(** X6. Once [handle_disconnect] has run for a connection, that
    connection hosts no room and is in no viewer set; running it a second
    time changes nothing and emits nothing. *)
Theorem disconnect_twice (s : sid) (st : state) :
  (∀ k room, active_rooms (handle_disconnect s st).1 !! k = Some room →
     s ≠ host_id room ∧ s ∉ viewers room)
  ∧ handle_disconnect s (handle_disconnect s st).1
    = ((handle_disconnect s st).1, []).
Proof.
  assert (Hgone : ∀ k room,
            active_rooms (handle_disconnect s st).1 !! k = Some room →
            in_room s room = false).
  { intros k room. rewrite handle_disconnect_rooms.
    destruct (active_rooms st !! k) as [room0 |]; [| done]. simpl.
    apply disconnect_entry_gone. }
  split.
  - intros k room Hk. apply in_room_false. by eapply Hgone.
  - by apply handle_disconnect_stranger.
Qed.

(** X7. A room that the disconnecting connection neither hosts nor views
    is left exactly as it was, and nothing is sent to its group. *)
Theorem disconnect_spares_other_rooms (s : sid) (st : state) (k : key)
    (room : StreamRoom) :
  active_rooms st !! k = Some room →
  s ≠ host_id room →
  s ∉ viewers room →
  active_rooms (on_disconnect s st).1 !! k = Some room
  ∧ filter (λ e, to_group k e) (on_disconnect s st).2 = [].
Proof.
  intros Hk Hh Hv. split.
  - rewrite on_disconnect_rooms, Hk. simpl.
    apply disconnect_entry_stranger. by apply in_room_false.
  - rewrite on_disconnect_out, (handle_disconnect_to_group s st k room Hk).
    rewrite disconnect_out_cases. by rewrite !decide_False.
Qed.

Lemma disconnect_spares_other_rooms_witness :
  active_rooms st_room !! KStr "r1" = Some room_r1
  ∧ ("Z" ≠ host_id room_r1)
  ∧ ("Z" ∉ viewers room_r1)
  ∧ active_rooms (on_disconnect "Z" st_room).1 !! KStr "r1" = Some room_r1.
Proof.
  pose proof st_room_lookup as Hk.
  assert (Hh : "Z" ≠ host_id room_r1) by (simpl; discriminate).
  assert (Hv : "Z" ∉ viewers room_r1) by (vm_compute; discriminate).
  split_and!; [exact Hk | exact Hh | exact Hv |].
  exact (proj1 (disconnect_spares_other_rooms "Z" st_room (KStr "r1") room_r1
                  Hk Hh Hv)).
Defined.

Lemma flat_map_disconnect_length s l :
  length (flat_map (disconnect_out s) l)
  = length (filter (λ item : key * StreamRoom, in_room s item.2) l).
Proof.
  induction l as [| item l IH]; [done |].
  cbn [flat_map]. rewrite length_app, disconnect_out_length, filter_cons.
  destruct (in_room s item.2); simpl; by rewrite IH.
Qed.

Lemma flat_map_disconnect_names s l :
  Forall (λ e, ev_name e = "stream_ended" ∨ ev_name e = "viewer_left")
         (flat_map (disconnect_out s) l).
Proof.
  induction l as [| [k room] l IH]; [done |].
  cbn [flat_map]. apply Forall_app. split; [| done].
  rewrite disconnect_out_cases.
  repeat case_decide;
    [ apply Forall_singleton; by left
    | apply Forall_singleton; by right
    | constructor ].
Qed.

(** X8. [handle_disconnect] emits one event for each room the connection
    hosts or views and none for any other: as many events as there are
    such rooms, each a [stream_ended] or a [viewer_left]. *)
Theorem disconnect_one_event_per_room (s : sid) (st : state) :
  length (handle_disconnect s st).2
  = length (filter (λ item : key * StreamRoom, in_room s item.2)
                   (map_to_list (active_rooms st)))
  ∧ Forall (λ e, ev_name e = "stream_ended" ∨ ev_name e = "viewer_left")
           (handle_disconnect s st).2
  ∧ length (handle_disconnect s st).2 ≤ size (active_rooms st).
Proof.
  rewrite handle_disconnect_out. split_and!.
  - apply flat_map_disconnect_length.
  - apply flat_map_disconnect_names.
  - rewrite flat_map_disconnect_length.
    rewrite <- length_map_to_list. apply length_filter.
Qed.

(** ** What one event can do to a room *)

(** The entry of [active_rooms] under [k] after one event of [s]: kept,
    or changed in one of five ways. *)
Lemma step_room_cases s e st st' out k :
  step s e st = Ok (st', out) →
  active_rooms st' !! k = active_rooms st !! k
  ∨ (e = Disconnect
     ∧ active_rooms st' !! k = active_rooms st !! k ≫= disconnect_entry s)
  ∨ (∃ now data, e = CreateRoom now data
     ∧ hash_key (get data "room_id") = Ok k
     ∧ active_rooms st' !! k
       = Some (StreamRoom_init (get data "room_id") s now))
  ∨ (∃ data room, e = JoinRoom data
     ∧ hash_key (get data "room_id") = Ok k
     ∧ active_rooms st !! k = Some room
     ∧ active_rooms st' !! k = Some (add_viewer s room))
  ∨ (∃ data room b, (e = StartStream data ∨ e = StopStream data)
     ∧ active_rooms st !! k = Some room
     ∧ active_rooms st' !! k = Some (set_stream_active b room))
  ∨ (∃ now data room, e = ChatMessage now data
     ∧ active_rooms st !! k = Some room
     ∧ active_rooms st' !! k = Some (append_chat (chat_data now data) room)).
Proof.
  destruct e; cbn [step].
  - intros [= <- <-]. by left.
  - intros [= Hd]. right; left. split; [done |].
    rewrite <- on_disconnect_rooms. by rewrite Hd.
  - unfold handle_create_room.
    destruct (hash_key (get data "room_id")) as [k0 | | |] eqn:Hh; [| done ..].
    cbn [bind]. destruct (join_room s k0 st) as [st0 | | |] eqn:Hj;
      [| done ..].
    apply join_room_inv in Hj as [_ ->]. cbn [bind].
    intros [= <- <-]. cbn [active_rooms set_rooms enter_room].
    destruct (decide (k0 = k)) as [-> | Hne].
    + do 2 right; left. exists now, data. by rewrite lookup_insert_eq.
    + left. by rewrite lookup_insert_ne.
  - unfold handle_join_room.
    destruct (hash_key (get data "room_id")) as [k0 | | |] eqn:Hh; [| done ..].
    cbn [bind]. destruct (active_rooms st !! k0) as [room |] eqn:Hk.
    + destruct (join_room s k0 st) as [st0 | | |] eqn:Hj; [| done ..].
      apply join_room_inv in Hj as [_ ->]. cbn [bind].
      intros [= <- <-]. cbn [active_rooms set_rooms enter_room].
      destruct (decide (k0 = k)) as [-> | Hne].
      * do 3 right; left. exists data, room. by rewrite lookup_insert_eq.
      * left. by rewrite lookup_insert_ne.
    + intros [= <- <-]. by left.
  - unfold handle_start_stream.
    destruct (hash_key (get data "room_id")) as [k0 | | |] eqn:Hh; [| done ..].
    cbn [bind]. destruct (active_rooms st !! k0) as [room |] eqn:Hk.
    + intros [= <- <-]. cbn [active_rooms set_rooms].
      destruct (decide (k0 = k)) as [-> | Hne].
      * do 4 right; left. exists data, room, true.
        rewrite lookup_insert_eq. auto.
      * left. by rewrite lookup_insert_ne.
    + intros [= <- <-]. by left.
  - unfold handle_stop_stream.
    destruct (hash_key (get data "room_id")) as [k0 | | |] eqn:Hh; [| done ..].
    cbn [bind]. destruct (active_rooms st !! k0) as [room |] eqn:Hk.
    + intros [= <- <-]. cbn [active_rooms set_rooms].
      destruct (decide (k0 = k)) as [-> | Hne].
      * do 4 right; left. exists data, room, false.
        rewrite lookup_insert_eq. auto.
      * left. by rewrite lookup_insert_ne.
    + intros [= <- <-]. by left.
  - intros H%emit_checked_inv. injection H as -> ->. by left.
  - intros H%emit_checked_inv. injection H as -> ->. by left.
  - intros H%emit_checked_inv. injection H as -> ->. by left.
  - unfold handle_chat_message.
    destruct (hash_key (get data "room_id")) as [k0 | | |] eqn:Hh; [| done ..].
    cbn [bind]. destruct (active_rooms st !! k0) as [room |] eqn:Hk.
    + intros [= <- <-]. cbn [active_rooms set_rooms].
      destruct (decide (k0 = k)) as [-> | Hne].
      * do 5 right. exists now, data, room. by rewrite lookup_insert_eq.
      * left. by rewrite lookup_insert_ne.
    + intros [= <- <-]. by left.
  - unfold handle_stream_stats.
    destruct (hash_key (get data "room_id")) as [k0 | | |] eqn:Hh; [| done ..].
    cbn [bind]. intros [= <- <-]. by left.
Qed.

(** Takes the six cases of [step_room_cases] apart. *)
Ltac room_cases H :=
  destruct H as
    [ H
    | [ [? H]
      | [ (? & ? & ? & ? & H)
        | [ (? & ? & ? & ? & ? & H)
          | [ (? & ? & ? & ? & ? & H)
            | (? & ? & ? & ? & ? & H) ] ] ] ] ].



(** X10. A room enters [active_rooms] in one way only: a [create_room]
    whose [room_id] hashes to its key.  The room then has the sender for
    host, no viewers, no history and the flag down. *)
Theorem room_added_only_by_create_room (s : sid) (e : event)
    (st st' : state) (out : list emission) (k : key) (room' : StreamRoom) :
  step s e st = Ok (st', out) →
  active_rooms st !! k = None →
  active_rooms st' !! k = Some room' →
  ∃ now data,
    e = CreateRoom now data
    ∧ hash_key (get data "room_id") = Ok k
    ∧ room' = fresh_room (get data "room_id") s now.
Proof.
  intros Hstep Hk Hnew.
  pose proof (step_room_cases s e st st' out k Hstep) as H.
  room_cases H; try congruence.
  - rewrite Hk in H. simpl in H. congruence.
  - eexists _, _. split_and!; [done | done |]. rewrite Hnew in H.
    by injection H as ->.
Qed.

Lemma room_added_only_by_create_room_witness :
  (∃ st' out, step "A" (CreateRoom "t0" data_r1) init = Ok (st', out)
              ∧ active_rooms init !! KStr "r1" = None
              ∧ active_rooms st' !! KStr "r1"
                = Some (fresh_room (VStr "r1") "A" "t0"))
  ∧ ∃ now data, CreateRoom "t0" data_r1 = CreateRoom now data
                ∧ hash_key (get data "room_id") = Ok (KStr "r1").
Proof.
  destruct (step "A" (CreateRoom "t0" data_r1) init)
    as [[st' out] | | |] eqn:E;
    [| vm_compute in E; discriminate E ..].
  assert (Hk : active_rooms init !! KStr "r1" = None) by reflexivity.
  assert (Hnew : active_rooms st' !! KStr "r1"
                 = Some (fresh_room (VStr "r1") "A" "t0")).
  { vm_compute in E. injection E as <- <-. vm_compute. reflexivity. }
  destruct (room_added_only_by_create_room "A" _ init st' out (KStr "r1") _
              E Hk Hnew) as (now & data & He & Hh & _).
  split; [by exists st', out | by exists now, data].
Defined.

(** X11. While a room stays in the table its [room_id], its host and its
    creation time do not change, unless a [create_room] for the same id
    replaces the room: no event hands a room over to another host. *)
Theorem room_identity_is_stable (s : sid) (e : event) (st st' : state)
    (out : list emission) (k : key) (room room' : StreamRoom) :
  step s e st = Ok (st', out) →
  active_rooms st !! k = Some room →
  active_rooms st' !! k = Some room' →
  (room_id room', host_id room', created_at room')
  = (room_id room, host_id room, created_at room)
  ∨ ∃ now data, e = CreateRoom now data
                ∧ hash_key (get data "room_id") = Ok k
                ∧ host_id room' = s.
Proof.
  intros Hstep Hk Hk'.
  pose proof (step_room_cases s e st st' out k Hstep) as H.
  room_cases H.
  - left. congruence.
  - left. rewrite Hk in H; simpl in H. rewrite Hk' in H.
    unfold disconnect_entry in H. repeat case_decide; by simplify_eq.
  - right. eexists _, _. split_and!; [done | done |].
    rewrite Hk' in H. by injection H as ->.
  - left. by simplify_eq.
  - left. by simplify_eq.
  - left. by simplify_eq.
Qed.

Lemma room_identity_is_stable_witness :
  ∃ st' out room',
    step "B" Disconnect st_room = Ok (st', out)
    ∧ active_rooms st_room !! KStr "r1" = Some room_r1
    ∧ active_rooms st' !! KStr "r1" = Some room'
    ∧ host_id room' = "A".
Proof.
  pose proof st_room_lookup as Hk.
  assert (Hstep : step "B" Disconnect st_room
                  = Ok ((on_disconnect "B" st_room).1,
                        (on_disconnect "B" st_room).2)).
  { cbn [step]. by destruct (on_disconnect "B" st_room). }
  assert (Hk' : active_rooms (on_disconnect "B" st_room).1 !! KStr "r1"
                = Some (remove_viewer "B" room_r1)).
  { rewrite on_disconnect_rooms, Hk. reflexivity. }
  eexists _, _, _. split_and!; [exact Hstep | exact Hk | exact Hk' |].
  destruct (room_identity_is_stable "B" Disconnect st_room _ _ (KStr "r1")
              room_r1 _ Hstep Hk Hk') as [Heq | (now & data & He & _)].
  - exact (f_equal (λ t, t.1.2) Heq).
  - discriminate He.
Defined.

(** X12. The viewer set of a room changes only through the connection
    concerned: a connection appears in it only by its own [join_room] for
    that id, and disappears from it only by its own disconnect, or when a
    [create_room] replaces the room by an empty one. *)
Theorem viewers_change_by_own_events (s : sid) (e : event) (st st' : state)
    (out : list emission) (k : key) (room room' : StreamRoom) (v : sid) :
  step s e st = Ok (st', out) →
  active_rooms st !! k = Some room →
  active_rooms st' !! k = Some room' →
  (v ∉ viewers room → v ∈ viewers room' →
     v = s ∧ ∃ data, e = JoinRoom data ∧ hash_key (get data "room_id") = Ok k)
  ∧ (v ∈ viewers room → v ∉ viewers room' →
     (v = s ∧ e = Disconnect)
     ∨ ∃ now data, e = CreateRoom now data
                   ∧ hash_key (get data "room_id") = Ok k).
Proof.
  intros Hstep Hk Hk'.
  pose proof (step_room_cases s e st st' out k Hstep) as H.
  room_cases H.
  - assert (room' = room) as -> by congruence. split; intros; done.
  - rewrite Hk in H; simpl in H. rewrite Hk' in H.
    unfold disconnect_entry in H.
    repeat case_decide; simplify_eq; simpl; split.
    + intros Hout Hin. exfalso. set_solver.
    + intros Hin Hout. left. split; [| done].
      destruct (decide (v = s)); [done |]. exfalso. set_solver.
    + intros Hout Hin. done.
    + intros Hin Hout. done.
  - split.
    + intros _ Hin. rewrite Hk' in H. injection H as ->.
      simpl in Hin. exfalso. set_solver.
    + intros _ _. right. by eexists _, _.
  - simplify_eq. simpl. split.
    + intros Hout Hin. split; [| by eexists].
      destruct (decide (v = s)); [done |]. exfalso. set_solver.
    + intros Hin Hout. exfalso. set_solver.
  - simplify_eq. simpl. split; intros; done.
  - simplify_eq. simpl. split; intros; done.
Qed.

Lemma viewers_change_by_own_events_witness :
  ∃ st' out,
    step "B" (JoinRoom data_bob) st_created = Ok (st', out)
    ∧ active_rooms st_created !! KStr "r1"
      = Some (fresh_room (VStr "r1") "A" "t0")
    ∧ active_rooms st' !! KStr "r1"
      = Some (add_viewer "B" (fresh_room (VStr "r1") "A" "t0"))
    ∧ ("B" ∉ viewers (fresh_room (VStr "r1") "A" "t0"))
    ∧ "B" ∈ viewers (add_viewer "B" (fresh_room (VStr "r1") "A" "t0"))
    ∧ ∃ data, JoinRoom data_bob = JoinRoom data
              ∧ hash_key (get data "room_id") = Ok (KStr "r1").
Proof.
  destruct (step "B" (JoinRoom data_bob) st_created)
    as [[st' out] | | |] eqn:E;
    [| vm_compute in E; discriminate E ..].
  assert (Hk : active_rooms st_created !! KStr "r1"
               = Some (fresh_room (VStr "r1") "A" "t0"))
    by (vm_compute; reflexivity).
  assert (Hk' : active_rooms st' !! KStr "r1"
                = Some (add_viewer "B" (fresh_room (VStr "r1") "A" "t0"))).
  { vm_compute in E. injection E as <- <-. vm_compute. reflexivity. }
  assert (Hin : "B" ∈ viewers (add_viewer "B" (fresh_room (VStr "r1") "A" "t0")))
    by (vm_compute; reflexivity).
  assert (Hout : "B" ∉ viewers (fresh_room (VStr "r1") "A" "t0"))
    by (vm_compute; discriminate).
  exists st', out.
  split_and!; [reflexivity | exact Hk | exact Hk' | exact Hout | exact Hin |].
  exact (proj2 (proj1 (viewers_change_by_own_events "B" _ st_created st' out
                         (KStr "r1") _ _ "B" E Hk Hk') Hout Hin)).
Defined.

(** X13. While a room stays in the table no chat entry is edited or
    dropped: after any event its old history is a prefix of the new one,
    unless a [create_room] for the same id replaced the room. *)
Theorem chat_history_is_append_only (s : sid) (e : event) (st st' : state)
    (out : list emission) (k : key) (room room' : StreamRoom) :
  step s e st = Ok (st', out) →
  active_rooms st !! k = Some room →
  active_rooms st' !! k = Some room' →
  chat_history room `prefix_of` chat_history room'
  ∨ ∃ now data, e = CreateRoom now data
                ∧ hash_key (get data "room_id") = Ok k
                ∧ chat_history room' = [].
Proof.
  intros Hstep Hk Hk'.
  pose proof (step_room_cases s e st st' out k Hstep) as H.
  room_cases H.
  - left. by assert (room' = room) as -> by congruence.
  - left. rewrite Hk in H; simpl in H. rewrite Hk' in H.
    unfold disconnect_entry in H. repeat case_decide; by simplify_eq.
  - right. eexists _, _. split_and!; [done | done |].
    rewrite Hk' in H. by injection H as ->.
  - left. by simplify_eq.
  - left. by simplify_eq.
  - left. simplify_eq. simpl. by apply prefix_app_r.
Qed.

Lemma chat_history_is_append_only_witness :
  ∃ st' out room',
    step "B" (ChatMessage "12:00:00" data_chat) st_room = Ok (st', out)
    ∧ active_rooms st_room !! KStr "r1" = Some room_r1
    ∧ active_rooms st' !! KStr "r1" = Some room'
    ∧ chat_history room_r1 `prefix_of` chat_history room'.
Proof.
  pose proof st_room_lookup as Hk.
  assert (Hh : hash_key (get data_chat "room_id") = Ok (KStr "r1"))
    by (vm_compute; reflexivity).
  pose proof (handle_chat_message_active "12:00:00" data_chat st_room
                (KStr "r1") room_r1 Hh Hk) as Hstep.
  change (handle_chat_message "12:00:00" data_chat st_room)
    with (step "B" (ChatMessage "12:00:00" data_chat) st_room) in Hstep.
  assert (Hk' : active_rooms
                  (set_rooms (<[KStr "r1" := append_chat
                                  (chat_data "12:00:00" data_chat) room_r1]>
                                (active_rooms st_room)) st_room)
                  !! KStr "r1"
                = Some (append_chat (chat_data "12:00:00" data_chat) room_r1))
    by apply lookup_insert_eq.
  eexists _, _, _. split_and!; [exact Hstep | exact Hk | exact Hk' |].
  destruct (chat_history_is_append_only "B" _ st_room _ _ (KStr "r1") room_r1 _
              Hstep Hk Hk') as [Hpre | (now & data & He & _)].
  - exact Hpre.
  - discriminate He.
Defined.

(** ** The statistics table over whole runs *)

Lemma step_stats_frame s e st st' out :
  step s e st = Ok (st', out) →
  stream_stats st' = stream_stats st
  ∨ ∃ now data k, e = StreamStats now data
      ∧ hash_key (get data "room_id") = Ok k
      ∧ stream_stats st'
        = <[k := slice_last 100 (default [] (stream_stats st !! k)
                                 ++ [stats_entry now (get data "stats")])]>
            (stream_stats st).
Proof.
  destruct e; cbn [step].
  - intros [= <- <-]. by left.
  - intros [= Hd]. left. rewrite <- (on_disconnect_stats s st). by rewrite Hd.
  - unfold handle_create_room.
    destruct (hash_key _) as [k | | |]; [| done ..]. cbn [bind].
    destruct (join_room s k st) as [st0 | | |] eqn:Hj; [| done ..].
    apply join_room_inv in Hj as [_ ->]. intros [= <- <-]. by left.
  - unfold handle_join_room.
    destruct (hash_key _) as [k | | |]; [| done ..]. cbn [bind].
    destruct (active_rooms st !! k); [| intros [= <- <-]; by left].
    destruct (join_room s k st) as [st0 | | |] eqn:Hj; [| done ..].
    apply join_room_inv in Hj as [_ ->]. intros [= <- <-]. by left.
  - unfold handle_start_stream.
    destruct (hash_key _) as [k | | |]; [| done ..]. cbn [bind].
    destruct (active_rooms st !! k); intros [= <- <-]; by left.
  - unfold handle_stop_stream.
    destruct (hash_key _) as [k | | |]; [| done ..]. cbn [bind].
    destruct (active_rooms st !! k); intros [= <- <-]; by left.
  - intros H%emit_checked_inv. injection H as -> ->. by left.
  - intros H%emit_checked_inv. injection H as -> ->. by left.
  - intros H%emit_checked_inv. injection H as -> ->. by left.
  - unfold handle_chat_message.
    destruct (hash_key _) as [k | | |]; [| done ..]. cbn [bind].
    destruct (active_rooms st !! k); intros [= <- <-]; by left.
  - destruct (hash_key (get data "room_id")) as [k | | |] eqn:Hh.
    + rewrite (handle_stream_stats_log now data st k Hh).
      intros [= <- <-]. right. by exists now, data, k.
    + unfold handle_stream_stats. by rewrite Hh.
    + unfold handle_stream_stats. by rewrite Hh.
    + unfold handle_stream_stats. by rewrite Hh.
Qed.

Lemma step_total_stats_frame s e st :
  stream_stats (step_total s e st).1 = stream_stats st
  ∨ ∃ now data k, e = StreamStats now data
      ∧ hash_key (get data "room_id") = Ok k
      ∧ stream_stats (step_total s e st).1
        = <[k := slice_last 100 (default [] (stream_stats st !! k)
                                 ++ [stats_entry now (get data "stats")])]>
            (stream_stats st).
Proof.
  unfold step_total. destruct (step s e st) as [[st' out] | | |] eqn:E.
  - by apply (step_stats_frame s e st st' out).
  - by left.
  - by left.
  - by left.
Qed.

Lemma slice_last_snoc_length {A} (l : list A) (x : A) :
  1 ≤ length (slice_last 100 (l ++ [x])) ≤ 100.
Proof. rewrite slice_last_length, length_app. simpl. lia. Qed.

Lemma stats_bounded_step s e st :
  stats_bounded st → stats_bounded (step_total s e st).1.
Proof.
  intros Hb k log.
  destruct (step_total_stats_frame s e st)
    as [-> | (now & data & k0 & _ & _ & ->)]; [apply Hb |].
  rewrite lookup_insert. case_decide.
  - intros [= <-]. apply slice_last_snoc_length.
  - apply Hb.
Qed.

Lemma stats_bounded_run evs st :
  stats_bounded st → stats_bounded (run evs st).1.
Proof.
  revert st. induction evs as [| [s e] evs IH]; intros st Hb; [done |].
  cbn [run]. pose proof (stats_bounded_step s e st Hb) as Hb1.
  destruct (step_total s e st) as [st1 out1].
  specialize (IH st1 Hb1). by destruct (run evs st1).
Qed.

(** X14. Whatever events arrive, from whatever connections, every log in
    [stream_stats] holds at least one and at most a hundred entries, so
    [get_stats] never returns more than a hundred. *)
Theorem stats_logs_stay_bounded (evs : list (sid * event)) :
  (∀ k log, stream_stats (run evs init).1 !! k = Some log →
     1 ≤ length log ≤ 100)
  ∧ ∀ rid, length (get_stats rid (run evs init).1) ≤ 100.
Proof.
  assert (Hb : stats_bounded (run evs init).1).
  { apply stats_bounded_run. intros k log Hk. cbn in Hk.
    by rewrite lookup_empty in Hk. }
  split; [exact Hb |].
  intros rid. unfold get_stats.
  destruct (stream_stats (run evs init).1 !! KStr rid) as [log |] eqn:Hk.
  - by apply (Hb _ _ Hk).
  - simpl. lia.
Qed.

Lemma stats_kept_step s e st k :
  is_Some (stream_stats st !! k) →
  is_Some (stream_stats (step_total s e st).1 !! k).
Proof.
  intros Hk.
  destruct (step_total_stats_frame s e st)
    as [-> | (now & data & k0 & _ & _ & ->)]; [done |].
  rewrite lookup_insert. by case_decide.
Qed.

(** X15. No event deletes statistics: an id that has a log keeps a log
    through any run, host disconnects and room replacements included, and
    an event other than [stream_stats] leaves the whole table as it was. *)
Theorem stats_are_never_deleted (evs : list (sid * event)) (st : state)
    (k : key) :
  is_Some (stream_stats st !! k) →
  is_Some (stream_stats (run evs st).1 !! k)
  ∧ ∀ s e, (∀ now data, e ≠ StreamStats now data) →
           stream_stats (step_total s e st).1 = stream_stats st.
Proof.
  intros Hk. split.
  - revert st Hk. induction evs as [| [s e] evs IH]; intros st Hk; [done |].
    cbn [run]. pose proof (stats_kept_step s e st k Hk) as Hk1.
    destruct (step_total s e st) as [st1 out1].
    specialize (IH st1 Hk1). by destruct (run evs st1).
  - intros s e Hne.
    destruct (step_total_stats_frame s e st)
      as [-> | (now & data & k0 & -> & _)]; [done |].
    by destruct (Hne now data).
Qed.

Lemma stats_are_never_deleted_witness :
  is_Some (stream_stats st_stats !! KStr "r1")
  ∧ is_Some (stream_stats
               (run [("A", Disconnect); ("B", CreateRoom "t2" data_r1);
                     ("B", Disconnect)] st_stats).1 !! KStr "r1").
Proof.
  assert (Hk : is_Some (stream_stats st_stats !! KStr "r1"))
    by (vm_compute; eexists; reflexivity).
  split; [exact Hk |].
  exact (proj1 (stats_are_never_deleted _ st_stats (KStr "r1") Hk)).
Defined.

Lemma last_slice_last_snoc {A} (l : list A) (x : A) :
  last (slice_last 100 (l ++ [x])) = Some x.
Proof.
  unfold slice_last. rewrite length_app; simpl.
  rewrite drop_app_le by lia. by rewrite last_snoc.
Qed.

(** X16. A [stream_stats] event needs no room: for a string id, whether
    or not such a room exists, it returns without an event and without
    touching [active_rooms], and [get_stats] for that id then returns the
    last hundred of the old log with the new entry, the new entry last;
    the logs of the other ids read as before. *)
Theorem stats_then_get_stats (now : timestamp) (data : pydict) (st : state)
    (rid : string) :
  get data "room_id" = VStr rid →
  let entry := stats_entry now (get data "stats") in
  ∃ st',
    handle_stream_stats now data st = Ok (st', [])
    ∧ get_stats rid st' = slice_last 100 (get_stats rid st ++ [entry])
    ∧ last (get_stats rid st') = Some entry
    ∧ (∀ rid', rid' ≠ rid → get_stats rid' st' = get_stats rid' st)
    ∧ active_rooms st' = active_rooms st.
Proof.
  intros Hrid entry. subst entry.
  assert (Hh : hash_key (get data "room_id") = Ok (KStr rid))
    by (by rewrite Hrid).
  rewrite (handle_stream_stats_log now data st (KStr rid) Hh).
  eexists. split; [reflexivity |].
  assert (Hold : default [] (stream_stats st !! KStr rid) = get_stats rid st).
  { unfold get_stats. by destruct (stream_stats st !! KStr rid). }
  unfold get_stats at 1 3; cbn [stream_stats set_stats].
  rewrite lookup_insert_eq, Hold.
  split_and!; [done | apply last_slice_last_snoc | | done].
  intros rid' Hne. unfold get_stats; cbn [stream_stats set_stats].
  rewrite lookup_insert_ne; [done | congruence].
Qed.

Lemma stats_then_get_stats_witness :
  get data_r1 "room_id" = VStr "r1"
  ∧ ∃ st',
      handle_stream_stats "t1" data_r1 init = Ok (st', [])
      ∧ get_stats "r1" st' = [stats_entry "t1" VNone].
Proof.
  assert (Hrid : get data_r1 "room_id" = VStr "r1") by (vm_compute; reflexivity).
  destruct (stats_then_get_stats "t1" data_r1 init "r1" Hrid)
    as (st' & Hrun & Hget & _).
  split; [exact Hrid |]. exists st'. split; [exact Hrun |].
  rewrite Hget. vm_compute. reflexivity.
Defined.

(** X17. Statistics sent without a [room_id], or with a number for one,
    are stored under a key that no URL names: the event succeeds and the
    log grows, but [get_stats] answers every id as before. *)
Theorem stats_without_string_id_unreadable (now : timestamp) (data : pydict)
    (st : state) (k : key) :
  hash_key (get data "room_id") = Ok k →
  (∀ rid, k ≠ KStr rid) →
  ∃ st',
    handle_stream_stats now data st = Ok (st', [])
    ∧ last <$> stream_stats st' !! k
      = Some (Some (stats_entry now (get data "stats")))
    ∧ ∀ rid, get_stats rid st' = get_stats rid st.
Proof.
  intros Hh Hk.
  rewrite (handle_stream_stats_log now data st k Hh).
  eexists. split; [reflexivity |]. cbn [stream_stats set_stats]. split.
  - rewrite lookup_insert_eq. simpl. by rewrite last_slice_last_snoc.
  - intros rid. unfold get_stats; cbn [stream_stats set_stats].
    rewrite lookup_insert_ne; [done |]. intros Heq. by apply (Hk rid).
Qed.

Lemma stats_without_string_id_unreadable_witness :
  hash_key (get (∅ : pydict) "room_id") = Ok KNone
  ∧ (∀ rid, KNone ≠ KStr rid)
  ∧ ∃ st',
      handle_stream_stats "t1" ∅ init = Ok (st', [])
      ∧ ∀ rid, get_stats rid st' = get_stats rid init.
Proof.
  assert (Hh : hash_key (get (∅ : pydict) "room_id") = Ok KNone)
    by (vm_compute; reflexivity).
  assert (Hk : ∀ rid, KNone ≠ KStr rid) by (intros rid; discriminate).
  destruct (stats_without_string_id_unreadable "t1" ∅ init KNone Hh Hk)
    as (st' & Hrun & _ & Hget).
  split_and!; [exact Hh | exact Hk |]. by exists st'.
Defined.

(** ** Room ids that do not hash *)



(** ** Invariants of every reachable state *)

(** X19. In every state reached from the empty one, the host and all
    viewers of every room are members of the group named by the room's
    key: each entered it by [join_room(room_id)] and leaves it only on
    its own disconnect. *)
Theorem rooms_stay_inside_groups (evs : list (sid * event)) (k : key)
    (room : StreamRoom) :
  active_rooms (run evs init).1 !! k = Some room →
  host_id room ∈ members k (run evs init).1
  ∧ viewers room ⊆ members k (run evs init).1.
Proof. apply (wf_run evs init wf_init). Qed.

Lemma rooms_stay_inside_groups_witness :
  active_rooms st_room !! KStr "r1" = Some room_r1
  ∧ host_id room_r1 ∈ members (KStr "r1") st_room
  ∧ viewers room_r1 ⊆ members (KStr "r1") st_room.
Proof.
  pose proof st_room_lookup as Hk. split; [exact Hk |].
  exact (rooms_stay_inside_groups _ (KStr "r1") room_r1 Hk).
Defined.

Lemma keys_agree_step s e st :
  keys_agree st → keys_agree (step_total s e st).1.
Proof.
  intros Hka. unfold step_total.
  destruct (step s e st) as [[st' out] | | |] eqn:E; [| done ..].
  intros k room' Hk'. cbn [fst] in Hk'.
  pose proof (step_room_cases s e st st' out k E) as H.
  room_cases H.
  - apply Hka. congruence.
  - rewrite Hk' in H. destruct (active_rooms st !! k) as [room |] eqn:Hk;
      [| done].
    simpl in H. unfold disconnect_entry in H.
    repeat case_decide; simplify_eq; simpl; eapply Hka; eassumption.
  - by simplify_eq.
  - simplify_eq. simpl. eapply Hka; eassumption.
  - simplify_eq. simpl. eapply Hka; eassumption.
  - simplify_eq. simpl. eapply Hka; eassumption.
Qed.

Lemma keys_agree_run evs st : keys_agree st → keys_agree (run evs st).1.
Proof.
  revert st. induction evs as [| [s e] evs IH]; intros st Hka; [done |].
  cbn [run]. pose proof (keys_agree_step s e st Hka) as Hka1.
  destruct (step_total s e st) as [st1 out1].
  specialize (IH st1 Hka1). by destruct (run evs st1).
Qed.

(** X20. In every state reached from the empty one, the [room_id] a room
    carries hashes to the key the room is stored under: the field and the
    table never disagree about which room this is. *)
Theorem room_id_matches_key (evs : list (sid * event)) (k : key)
    (room : StreamRoom) :
  active_rooms (run evs init).1 !! k = Some room →
  hash_key (room_id room) = Ok k ∧ room_id room = key_value k.
Proof.
  intros Hk.
  assert (Hh : hash_key (room_id room) = Ok k).
  { apply (keys_agree_run evs init); [| done].
    intros k' r Hr. cbn in Hr. by rewrite lookup_empty in Hr. }
  split; [done |]. revert Hh. destruct (room_id room), k; simpl; congruence.
Qed.

Lemma room_id_matches_key_witness :
  active_rooms st_room !! KStr "r1" = Some room_r1
  ∧ hash_key (room_id room_r1) = Ok (KStr "r1").
Proof.
  pose proof st_room_lookup as Hk. split; [exact Hk |].
  exact (proj1 (room_id_matches_key _ (KStr "r1") room_r1 Hk)).
Defined.

(** ** The room listing *)

Lemma key_value_inj : Inj (=) (=) key_value.
Proof. intros [] []; simpl; congruence. Qed.

(** X21. [get_rooms] lists every room of [active_rooms] exactly once,
    under its key, with the size of its viewer set, its flag and its
    creation time, and lists nothing else. *)
Theorem get_rooms_lists_each_room (st : state) :
  length (get_rooms st) = size (active_rooms st)
  ∧ NoDup (info_room_id <$> get_rooms st)
  ∧ ∀ info, info ∈ get_rooms st ↔
      ∃ k room, active_rooms st !! k = Some room
                ∧ info = mkRoomInfo (key_value k) (size (viewers room))
                                    (stream_active room) (created_at room).
Proof.
  unfold get_rooms. split_and!.
  - by rewrite length_fmap, length_map_to_list.
  - rewrite <- list_fmap_compose.
    rewrite (list_fmap_ext _ (key_value ∘ fst) (map_to_list (active_rooms st)))
      by done.
    rewrite list_fmap_compose. apply NoDup_fmap_2; [exact key_value_inj |].
    apply NoDup_fst_map_to_list.
  - intros info. rewrite list_elem_of_fmap. split.
    + intros ([k room] & -> & Hin). apply elem_of_map_to_list in Hin.
      by exists k, room.
    + intros (k & room & Hk & ->). exists (k, room).
      split; [done |]. by apply elem_of_map_to_list.
Qed.

(** ** Round trips *)

(** X22. On the viewer set adding and removing undo each other: removing
    a connection just added to a room it was not in gives the room back,
    adding one just removed from a room it was in gives the room back,
    the count moving by one each way; and changes for two different
    connections can be made in either order. *)
Theorem viewer_add_remove_round_trip (c : sid) (room : StreamRoom) :
  (c ∉ viewers room →
     remove_viewer c (add_viewer c room) = room
     ∧ get_viewer_count (add_viewer c room) = S (get_viewer_count room))
  ∧ (c ∈ viewers room →
     add_viewer c (remove_viewer c room) = room
     ∧ S (get_viewer_count (remove_viewer c room)) = get_viewer_count room)
  ∧ ∀ c', c ≠ c' →
      remove_viewer c (add_viewer c' room) = add_viewer c' (remove_viewer c room).
Proof.
  split_and!.
  - intros Hc. split.
    + apply StreamRoom_eq; simpl; try done. set_solver.
    + rewrite add_viewer_count. by rewrite decide_False.
  - intros Hc. split.
    + apply StreamRoom_eq; simpl; try done. apply set_eq. intros x.
      rewrite elem_of_union, elem_of_difference, elem_of_singleton.
      destruct (decide (x = c)) as [-> | Hne]; naive_solver.
    + unfold get_viewer_count; simpl.
      rewrite size_difference by set_solver. rewrite size_singleton.
      assert (size (viewers room) ≠ 0); [| lia].
      intros Hz%size_empty_inv. set_solver.
  - intros c' Hne. apply StreamRoom_eq; simpl; try done. set_solver.
Qed.

Lemma viewer_add_remove_round_trip_witness :
  ("Z" ∉ viewers room_r1)
  ∧ remove_viewer "Z" (add_viewer "Z" room_r1) = room_r1
  ∧ "B" ∈ viewers room_r1
  ∧ add_viewer "B" (remove_viewer "B" room_r1) = room_r1.
Proof.
  assert (Hz : "Z" ∉ viewers room_r1) by (vm_compute; discriminate).
  assert (Hb : "B" ∈ viewers room_r1) by (vm_compute; reflexivity).
  destruct (viewer_add_remove_round_trip "Z" room_r1) as (Hadd & _ & _).
  destruct (viewer_add_remove_round_trip "B" room_r1) as (_ & Hrem & _).
  split_and!; [exact Hz | exact (proj1 (Hadd Hz)) | exact Hb
              | exact (proj1 (Hrem Hb))].
Defined.




(** ** Creating, then joining *)

(** X24. Counting starts afresh with every [create_room]: whatever was
    stored under the id before, when the id is not the sid of a connected
    client other than the sender, for the creator and for the joiner
    alike, the first [join_room] after a [create_room] succeeds, reports
    a viewer count of one and leaves the joiner as the only viewer of a
    room hosted by the creator. *)
Theorem first_join_after_create (s1 s2 : sid) (now : timestamp)
    (data : pydict) (st : state) (k : key) :
  hash_key (get data "room_id") = Ok k →
  join_refused s1 k st = false →
  join_refused s2 k st = false →
  let rid := get data "room_id" in
  let username := get_default data "username" (VStr "Anonymous") in
  ∃ st1 st2 room,
    handle_create_room s1 now data st
    = Ok (st1, [emit "room_created"
                  {[ "room_id" := rid; "host_id" := VStr s1 ]}])
    ∧ handle_join_room s2 data st1
      = Ok (st2,
            [emit "room_joined"
               {[ "room_id" := rid; "viewer_count" := VInt 1;
                  "username" := username ]};
             emit_room_others "viewer_joined"
               {[ "viewer_id" := VStr s2; "username" := username;
                  "viewer_count" := VInt 1 ]} rid])
    ∧ active_rooms st2 !! k = Some room
    ∧ host_id room = s1
    ∧ viewers room = {[ s2 ]}
    ∧ {[ s1; s2 ]} ⊆ members k st2.
Proof.
  intros Hh Hadm1 Hadm2 rid username. subst rid username.
  assert (Hone : get_viewer_count
                   (add_viewer s2 (StreamRoom_init (get data "room_id") s1 now))
                 = 1).
  { unfold get_viewer_count; cbn [viewers add_viewer StreamRoom_init].
    rewrite (left_id_L ∅ (∪)). apply size_singleton. }
  eexists _, _, _. split.
  { unfold handle_create_room. rewrite Hh; cbn [bind].
    rewrite (join_room_admitted s1 k st Hadm1). reflexivity. }
  unfold handle_join_room. rewrite Hh; cbn [bind].
  cbn [active_rooms set_rooms]. rewrite lookup_insert_eq.
  rewrite (join_room_admitted s2 k _) by (by rewrite join_refused_entered).
  cbn [bind]. rewrite Hone.
  split; [reflexivity |].
  rewrite !members_set_rooms, !members_enter_room, !decide_True by done.
  cbn [active_rooms set_rooms]. rewrite lookup_insert_eq.
  split; [reflexivity |]. simpl.
  split; [done |]. split; [by rewrite (left_id_L ∅ (∪)) |].
  rewrite members_set_rooms, members_enter_room, decide_True by done.
  set_solver.
Qed.

Lemma first_join_after_create_witness :
  hash_key (get data_bob "room_id") = Ok (KStr "r1")
  ∧ join_refused "C" (KStr "r1") st_room = false
  ∧ join_refused "B" (KStr "r1") st_room = false
  ∧ ∃ st1 st2,
      handle_create_room "C" "t9" data_bob st_room
      = Ok (st1, [emit "room_created"
                    {[ "room_id" := VStr "r1"; "host_id" := VStr "C" ]}])
      ∧ handle_join_room "B" data_bob st1
        = Ok (st2,
              [emit "room_joined"
                 {[ "room_id" := VStr "r1"; "viewer_count" := VInt 1;
                    "username" := VStr "Bob" ]};
               emit_room_others "viewer_joined"
                 {[ "viewer_id" := VStr "B"; "username" := VStr "Bob";
                    "viewer_count" := VInt 1 ]} (VStr "r1")]).
Proof.
  assert (Hh : hash_key (get data_bob "room_id") = Ok (KStr "r1"))
    by (vm_compute; reflexivity).
  assert (Hadm1 : join_refused "C" (KStr "r1") st_room = false)
    by (vm_compute; reflexivity).
  assert (Hadm2 : join_refused "B" (KStr "r1") st_room = false)
    by (vm_compute; reflexivity).
  destruct (first_join_after_create "C" "B" "t9" data_bob st_room (KStr "r1")
              Hh Hadm1 Hadm2) as (st1 & st2 & room & Hcreate & Hjoin & _).
  split_and!; [exact Hh | exact Hadm1 | exact Hadm2 |].
  exists st1, st2. split; [exact Hcreate | exact Hjoin].
Defined.
